(** * testutil: fluent request builder and content-negotiated decoder

    A shallow embedding of [request_helpers.go].  The builder is a mutable
    struct behind a pointer; its methods are programs of a small state and
    panic monad [Go] over a store holding the builder, the calls made on the
    test reporter and the requests served by the handler.  The parts of Go's
    standard library the code calls are modelled in their own modules. *)

From Stdlib Require Import ZArith Ascii String.
From stdpp Require Import base option list strings gmap fin_maps.

Local Open Scope Z_scope.
Local Open Scope string_scope.
Local Open Scope list_scope.

(** ** Go values shared by every part *)

(** A Go [error]: [errors.New]/[fmt.Errorf] without [%w] give an
    [errorString]; [fmt.Errorf] with [%w] gives a [wrapError] that keeps the
    wrapped error next to the formatted message. *)
Inductive error : Type :=
  | errorString (msg : string)
  | wrapError (msg : string) (err : error).

(** The [Error()] method. *)
Definition Error_msg (e : error) : string :=
  match e with
  | errorString msg => msg
  | wrapError msg _ => msg
  end.

(** [fmt.Errorf(prefix + "%w", err)] *)
Definition Errorf_w (prefix : string) (err : error) : error :=
  wrapError (prefix +:+ Error_msg err) err.

(** [fmt.Errorf(prefix + "%s", s)] *)
Definition Errorf_s (prefix : string) (s : string) : error :=
  errorString (prefix +:+ s).

(** A [context.Context]: the code only stores it and hands it on. *)
Module context.
Inductive Context : Type :=
  | Background
  | WithValue (id : nat).
End context.

(** What a Go call does: it returns, or it panics. *)
Inductive outcome (A : Type) : Type :=
  | Returned (a : A)
  | Panicked (msg : string).
Arguments Returned {A} a.
Arguments Panicked {A} msg.

(** ** Byte tests on strings *)

Module Bytes.

Definition code (c : ascii) : N := N_of_ascii c.

Definition in_range (lo hi : N) (c : ascii) : bool :=
  ((lo <=? code c) && (code c <=? hi))%N.

Definition is_lower (c : ascii) : bool := in_range 97 122 c.
Definition is_upper (c : ascii) : bool := in_range 65 90 c.
Definition is_digit (c : ascii) : bool := in_range 48 57 c.

(** [c - ('a' - 'A')] and [c + ('a' - 'A')] on a byte. *)
Definition to_upper (c : ascii) : ascii := ascii_of_N (code c - 32).
Definition to_lower (c : ascii) : ascii := ascii_of_N (code c + 32).

Definition eqb (a b : ascii) : bool := Ascii.eqb a b.

Fixpoint mem (c : ascii) (s : string) : bool :=
  match s with
  | EmptyString => false
  | String d s' => eqb c d || mem c s'
  end.

Fixpoint all (p : ascii -> bool) (s : string) : bool :=
  match s with
  | EmptyString => true
  | String c s' => p c && all p s'
  end.

End Bytes.

(** ** strings: Split and TrimSpace *)

Module strings.

(** [strings.Split(s, sep)] for a one-byte separator: the pieces between the
    separators, never an empty slice. *)
Fixpoint Split (s : string) (sep : ascii) : list string :=
  match s with
  | EmptyString => [EmptyString]
  | String c s' =>
      if Bytes.eqb c sep then EmptyString :: Split s' sep
      else match Split s' sep with
           | [] => [String c EmptyString]
           | piece :: pieces => String c piece :: pieces
           end
  end.

(** The string of the given byte values. *)
Definition bytes_of (codes : list N) : string :=
  foldr (fun n s => String (ascii_of_N n) s) EmptyString codes.

(** The UTF-8 encodings of the runes [unicode.IsSpace] accepts: tab to
    carriage return, space, U+0085, U+00A0, U+1680, U+2000 to U+200A, U+2028,
    U+2029, U+202F, U+205F and U+3000.  A Go string is a byte sequence;
    [TrimSpace] decodes runes from it, and a rune it decodes is a space
    exactly when the bytes at hand are one of these encodings. *)
Definition space_runes : list string :=
  map bytes_of
    [ [9]; [10]; [11]; [12]; [13]; [32];
      [194; 133]; [194; 160]; [225; 154; 128];
      [226; 128; 128]; [226; 128; 129]; [226; 128; 130]; [226; 128; 131];
      [226; 128; 132]; [226; 128; 133]; [226; 128; 134]; [226; 128; 135];
      [226; 128; 136]; [226; 128; 137]; [226; 128; 138];
      [226; 128; 168]; [226; 128; 169]; [226; 128; 175];
      [226; 129; 159]; [227; 128; 128] ]%N.

(** [s] without the prefix [p], when it starts with it. *)
Fixpoint cut_prefix (p s : string) : option string :=
  match p, s with
  | EmptyString, _ => Some s
  | String a p', String b s' =>
      if Bytes.eqb a b then cut_prefix p' s' else None
  | String _ _, EmptyString => None
  end.

(** [s] without its first rune, when that rune is a space. *)
Definition cut_space (runes : list string) (s : string) : option string :=
  foldr (fun p found => match cut_prefix p s with
                        | Some rest => Some rest
                        | None => found
                        end) None runes.

(** Runes cut from the front, one per round, until none starts [s]. *)
Fixpoint trim_left (runes : list string) (fuel : nat) (s : string) : string :=
  match fuel with
  | O => s
  | S fuel' =>
      match cut_space runes s with
      | Some rest => trim_left runes fuel' rest
      | None => s
      end
  end.

(** Leading space runes dropped; each one takes a byte at least, so the
    length of [s] bounds the number of rounds. *)
Definition TrimLeftSpace (s : string) : string :=
  trim_left space_runes (String.length s) s.

(** Trailing space runes dropped: the last rune is a space exactly when the
    string ends with one of the encodings. *)
Definition TrimRightSpace (s : string) : string :=
  String.rev (trim_left (map String.rev space_runes) (String.length s)
                (String.rev s)).

(** [strings.TrimSpace] *)
Definition TrimSpace (s : string) : string :=
  TrimRightSpace (TrimLeftSpace s).

End strings.

(** ** net/textproto: canonical header keys *)

Module textproto.

(** [validHeaderFieldByte]: the token characters of RFC 7230. *)
Definition validHeaderFieldByte (c : ascii) : bool :=
  Bytes.is_digit c || Bytes.is_lower c || Bytes.is_upper c
  || Bytes.mem c "!#$%&'*+-.^_`|~".

(** The loop of [canonicalMIMEHeaderKey]: upper case at the start and after
    each dash, lower case elsewhere. *)
Fixpoint canonicalize (upper : bool) (s : string) : string :=
  match s with
  | EmptyString => EmptyString
  | String c s' =>
      let c' :=
        if upper && Bytes.is_lower c then Bytes.to_upper c
        else if negb upper && Bytes.is_upper c then Bytes.to_lower c
        else c in
      String c' (canonicalize (Bytes.eqb c' "-") s')
  end.

(** [CanonicalMIMEHeaderKey]: a key holding a byte that is not a token
    character (a space included) is returned unchanged. *)
Definition CanonicalMIMEHeaderKey (s : string) : string :=
  if Bytes.all validHeaderFieldByte s then canonicalize true s else s.

End textproto.

(** ** net/http: headers, cookies, requests, recorders *)

Module http.

(** [http.Header] is [map[string][]string]. *)
Abbreviation Header := (gmap string (list string)).

(** [h[key]] read as a slice: a missing key reads as nil. *)
Definition values (key : string) (h : Header) : list string :=
  default [] (h !! key).

(** [Header.Add]: append under the canonical key. *)
Definition Header_Add (key value : string) (h : Header) : Header :=
  let k := textproto.CanonicalMIMEHeaderKey key in
  <[k := values k h ++ [value]]> h.

(** [Header.Set]: one value under the canonical key. *)
Definition Header_Set (key value : string) (h : Header) : Header :=
  <[textproto.CanonicalMIMEHeaderKey key := [value]]> h.

(** [Header.Get]: first value under the canonical key, or "". *)
Definition Header_Get (key : string) (h : Header) : string :=
  match values (textproto.CanonicalMIMEHeaderKey key) h with
  | [] => ""
  | v :: _ => v
  end.

(** [http.Cookie], the fields [Request.AddCookie] reads.  The builder keeps
    [*http.Cookie] pointers; they are taken to be non-nil. *)
Record Cookie : Type := mkCookie {
  Name : string;
  Value : string;
  Quoted : bool;
}.

(** [http.Request], the fields this code and [httptest.NewRequest] set. *)
Record Request : Type := mkRequest {
  req_Method : string;
  req_RequestURI : string;
  req_Proto : string;
  req_Close : bool;
  req_Host : string;
  req_Header : Header;
  req_Body : string;
  req_ContentLength : Z;
  req_RemoteAddr : string;
  req_TLS : bool;
  req_ctx : context.Context;
}.

Definition set_Header (h : Header) (r : Request) : Request :=
  mkRequest (req_Method r) (req_RequestURI r) (req_Proto r) (req_Close r)
    (req_Host r) h (req_Body r) (req_ContentLength r) (req_RemoteAddr r)
    (req_TLS r) (req_ctx r).

Definition set_Host (host : string) (r : Request) : Request :=
  mkRequest (req_Method r) (req_RequestURI r) (req_Proto r) (req_Close r)
    host (req_Header r) (req_Body r) (req_ContentLength r) (req_RemoteAddr r)
    (req_TLS r) (req_ctx r).

(** [Request.WithContext]: a shallow copy with the context replaced. *)
Definition WithContext (ctx : context.Context) (r : Request) : Request :=
  mkRequest (req_Method r) (req_RequestURI r) (req_Proto r) (req_Close r)
    (req_Host r) (req_Header r) (req_Body r) (req_ContentLength r)
    (req_RemoteAddr r) (req_TLS r) ctx.

(** [req.Header.Add(h, v)] *)
Definition add_header (req : Request) (hv : string * string) : Request :=
  set_Header (Header_Add hv.1 hv.2 (req_Header req)) req.

(** [httptest.ResponseRecorder]: status code, header map and the unread
    bytes of the body buffer. *)
Record ResponseRecorder : Type := mkRecorder {
  rec_Code : Z;
  rec_HeaderMap : Header;
  rec_Body : string;
}.

(** [httptest.NewRecorder] *)
Definition NewRecorder : ResponseRecorder := mkRecorder 200 ∅ "".

(** An [http.Handler]: [ServeHTTP] writes to the recorder it is given, or
    panics.  It reads the request and cannot reach the builder. *)
Definition Handler : Type :=
  ResponseRecorder -> Request -> outcome ResponseRecorder.

End http.
Export http.

(** The library functions the code reaches whose bodies are not part of this
    repository: [json.Marshal] on the values a test passes, [http.ReadRequest]
    on the request text [httptest.NewRequest] builds, and the two cookie
    sanitizers of [Request.AddCookie]. *)
Class Library (Obj : Type) : Type := {
  json_Marshal : Obj -> string + error;
  http_ReadRequest : string -> Request + error;
  sanitizeCookieName : string -> string;
  sanitizeCookieValue : string -> bool -> string;
}.

(** ** The store and the [Go] monad *)

(** RequestBuilder caches request settings as we build up the request.  A nil
    map, byte slice, error or context is [None]; a nil cookie slice is the
    empty list. *)
Record RequestBuilder : Type := mkBuilder {
  Method : string;
  Path : string;
  Headers : option (gmap string string);
  Body : option string;
  Error : option error;
  Cookies : list Cookie;
  Context : option context.Context;
}.

(** One call of [TestReporter.Errorf]. *)
Record ErrorfCall : Type := mkErrorf {
  format : string;
  args : list error;
}.

(** The receiver [*RequestBuilder] points to [builder]; [reported] lists the
    calls made on the reporter and [served] the requests handed to the
    handler, oldest first. *)
Record Store : Type := mkStore {
  builder : RequestBuilder;
  reported : list ErrorfCall;
  served : list Request;
}.

Definition Go (A : Type) : Type := Store -> outcome A * Store.

#[export] Instance Go_ret : MRet Go := fun A a s => (Returned a, s).

#[export] Instance Go_bind : MBind Go := fun A B f m s =>
  match m s with
  | (Returned a, s') => f a s'
  | (Panicked msg, s') => (Panicked msg, s')
  end.

Definition panic {A : Type} (msg : string) : Go A := fun s => (Panicked msg, s).

(** Reading and writing through the receiver. *)
Definition load : Go RequestBuilder := fun s => (Returned (builder s), s).

Definition store (r : RequestBuilder) : Go unit :=
  fun s => (Returned tt, mkStore r (reported s) (served s)).

(** [t.Errorf(format, args...)] *)
Definition Errorf (fmt : string) (a : list error) : Go unit :=
  fun s => (Returned tt,
            mkStore (builder s) (reported s ++ [mkErrorf fmt a]) (served s)).

(** [handler.ServeHTTP(rec, req)] *)
Definition ServeHTTP (handler : Handler) (rec : ResponseRecorder)
    (req : Request) : Go ResponseRecorder :=
  fun s =>
    (handler rec req, mkStore (builder s) (reported s) (served s ++ [req])).

(** ** net/http/httptest and Request.AddCookie *)

Definition CRLF : string := String "013" (String "010" "").

Definition set_Proto (p : string) (cl : bool) (r : Request) : Request :=
  mkRequest (req_Method r) (req_RequestURI r) p cl (req_Host r)
    (req_Header r) (req_Body r) (req_ContentLength r) (req_RemoteAddr r)
    (req_TLS r) (req_ctx r).

Definition set_Body (b : string) (r : Request) : Request :=
  mkRequest (req_Method r) (req_RequestURI r) (req_Proto r) (req_Close r)
    (req_Host r) (req_Header r) b (Z.of_nat (String.length b))
    (req_RemoteAddr r) (req_TLS r) (req_ctx r).

Definition set_RemoteAddr (a : string) (r : Request) : Request :=
  mkRequest (req_Method r) (req_RequestURI r) (req_Proto r) (req_Close r)
    (req_Host r) (req_Header r) (req_Body r) (req_ContentLength r) a
    (req_TLS r) (req_ctx r).

Definition set_TLS (r : Request) : Request :=
  mkRequest (req_Method r) (req_RequestURI r) (req_Proto r) (req_Close r)
    (req_Host r) (req_Header r) (req_Body r) (req_ContentLength r)
    (req_RemoteAddr r) true (req_ctx r).

Section Program.

Context {Obj : Type} {L : Library Obj}.

(** [httptest.NewRequest]: parse the request line, panic when it is refused,
    then fix protocol, body, remote address and host. *)
Definition httptest_NewRequest (method target : string)
    (body : option string) : Go Request :=
  let method := if decide (method = "") then "GET" else method in
  match http_ReadRequest
          (method +:+ " " +:+ target +:+ " HTTP/1.0" +:+ CRLF +:+ CRLF) with
  | inr err => panic ("invalid NewRequest arguments; " +:+ Error_msg err)
  | inl req =>
      let req := WithContext context.Background req in
      let req := set_Proto "HTTP/1.1" false req in
      let req := match body with
                 | Some b => set_Body b req
                 | None => req
                 end in
      let req := set_RemoteAddr "192.0.2.1:1234" req in
      let req := if decide (req_Host req = "")
                 then set_Host "example.com" req else req in
      let req := if String.prefix "https://" target
                 then set_TLS req else req in
      mret req
  end.

(** [Request.AddCookie]: the pair joins the Cookie header after "; ", or
    becomes it when the header is absent or empty. *)
Definition cookie_pair (c : Cookie) : string :=
  sanitizeCookieName (Name c) +:+ "=" +:+
  sanitizeCookieValue (Value c) (Quoted c).

Definition AddCookie (req : Request) (c : Cookie) : Request :=
  let s := cookie_pair c in
  let old := Header_Get "Cookie" (req_Header req) in
  if decide (old = "")
  then set_Header (Header_Set "Cookie" s (req_Header req)) req
  else set_Header (Header_Set "Cookie" (old +:+ "; " +:+ s) (req_Header req)) req.

(** ** RequestBuilder

    Every configuration method returns its receiver; with the one builder of
    the store behind that pointer, the programs below return [unit]. *)

Definition NewRequest : RequestBuilder :=
  mkBuilder "" "" (Some ∅) None None [] None.

(** [r.Headers[header] = value]: assignment to an entry of a nil map
    panics. *)
Definition assign_header (header value : string) : Go unit :=
  r ← load;
  match Headers r with
  | None => panic "assignment to entry in nil map"
  | Some m =>
      store (mkBuilder (Method r) (Path r) (Some (<[header := value]> m))
               (Body r) (Error r) (Cookies r) (Context r))
  end.

(** WithMethod sets the method and path *)
Definition WithMethod (method path : string) : Go unit :=
  r ← load;
  store (mkBuilder method (Path r) (Headers r) (Body r) (Error r)
           (Cookies r) (Context r));;
  r ← load;
  store (mkBuilder (Method r) path (Headers r) (Body r) (Error r)
           (Cookies r) (Context r)).

Definition Get (path : string) : Go unit := WithMethod "GET" path.
Definition Post (path : string) : Go unit := WithMethod "POST" path.
Definition Put (path : string) : Go unit := WithMethod "PUT" path.
Definition Patch (path : string) : Go unit := WithMethod "PATCH" path.
Definition Delete (path : string) : Go unit := WithMethod "DELETE" path.

(** WithHeader sets a header *)
Definition WithHeader (header value : string) : Go unit :=
  assign_header header value.

Definition WithJWSAuth (jws : string) : Go unit :=
  assign_header "Authorization" ("Bearer " +:+ jws).

Definition WithHost (value : string) : Go unit := WithHeader "Host" value.

Definition WithContentType (value : string) : Go unit :=
  WithHeader "Content-Type" value.

Definition WithJsonContentType : Go unit :=
  WithContentType "application/json".

Definition WithAccept (value : string) : Go unit := WithHeader "Accept" value.

Definition WithAcceptJson : Go unit := WithAccept "application/json".

Definition WithBody (body : option string) : Go unit :=
  r ← load;
  store (mkBuilder (Method r) (Path r) (Headers r) body (Error r)
           (Cookies r) (Context r)).

(** WithJsonBody takes an object as input, marshals it to JSON, and sends it
    as the body with Content-Type: application/json.  [json.Marshal] returns
    a nil slice next to an error. *)
Definition WithJsonBody (obj : Obj) : Go unit :=
  let '(bytes, err) :=
    match json_Marshal obj with
    | inl b => (Some b, None)
    | inr e => (None, Some e)
    end in
  r ← load;
  store (mkBuilder (Method r) (Path r) (Headers r) bytes (Error r)
           (Cookies r) (Context r));;
  match err with
  | Some e =>
      r ← load;
      store (mkBuilder (Method r) (Path r) (Headers r) (Body r)
               (Some (Errorf_w "failed to marshal json object: " e))
               (Cookies r) (Context r))
  | None => mret tt
  end;;
  WithJsonContentType.

(** WithCookie sets a cookie *)
Definition WithCookie (c : Cookie) : Go unit :=
  r ← load;
  store (mkBuilder (Method r) (Path r) (Headers r) (Body r) (Error r)
           (Cookies r ++ [c]) (Context r)).

Definition WithCookieNameValue (name value : string) : Go unit :=
  WithCookie (mkCookie name value false).

Definition WithContext (ctx : option context.Context) : Go unit :=
  r ← load;
  store (mkBuilder (Method r) (Path r) (Headers r) (Body r) (Error r)
           (Cookies r) ctx).

(** CompletedRequest is the result of calling Go() on the request builder. *)
Record CompletedRequest : Type := mkCompleted {
  Recorder : ResponseRecorder;
  Strict : bool;
}.

(** Reading a nil map finds nothing. *)
Definition entries (r : RequestBuilder) : gmap string string :=
  default ∅ (Headers r).

(** [order] is an order in which [range r.Headers] may yield the entries:
    the language fixes none, any arrangement of the entries can occur. *)
Definition range_of (r : RequestBuilder) (order : list (string * string)) : Prop :=
  order ≡ₚ map_to_list (entries r).

(** GoWithHTTPHandler performs the request, it takes a pointer to a testing
    context to print messages, and a http handler for request handling.  The
    result is [None] for the nil pointer.  [order] is the order the range
    over the header map takes. *)
Definition GoWithHTTPHandler (order : list (string * string))
    (handler : Handler) : Go (option CompletedRequest) :=
  r ← load;
  match Error r with
  | Some err =>
      Errorf "error constructing request: %s" [err];;
      mret None
  | None =>
      let bodyReader := Body r in
      req ← httptest_NewRequest (Method r) (Path r) bodyReader;
      let req := foldl add_header req order in
      let req := match entries r !! "Host" with
                 | Some host => set_Host host req
                 | None => req
                 end in
      let req := foldl AddCookie req (Cookies r) in
      let req := match Context r with
                 | Some ctx => http.WithContext ctx req
                 | None => req
                 end in
      let rec := NewRecorder in
      rec ← ServeHTTP handler rec req;
      mret (Some (mkCompleted rec false))
  end.

(** ** Chains of configuration calls *)

(** One configuration call of the fluent interface. *)
Inductive Config : Type :=
  | CallWithMethod (method path : string)
  | CallGet (path : string)
  | CallPost (path : string)
  | CallPut (path : string)
  | CallPatch (path : string)
  | CallDelete (path : string)
  | CallWithHeader (header value : string)
  | CallWithJWSAuth (jws : string)
  | CallWithHost (value : string)
  | CallWithContentType (value : string)
  | CallWithJsonContentType
  | CallWithAccept (value : string)
  | CallWithAcceptJson
  | CallWithBody (body : option string)
  | CallWithJsonBody (obj : Obj)
  | CallWithCookie (c : Cookie)
  | CallWithCookieNameValue (name value : string)
  | CallWithContext (ctx : option context.Context).

Definition call (c : Config) : Go unit :=
  match c with
  | CallWithMethod method path => WithMethod method path
  | CallGet path => Get path
  | CallPost path => Post path
  | CallPut path => Put path
  | CallPatch path => Patch path
  | CallDelete path => Delete path
  | CallWithHeader header value => WithHeader header value
  | CallWithJWSAuth jws => WithJWSAuth jws
  | CallWithHost value => WithHost value
  | CallWithContentType value => WithContentType value
  | CallWithJsonContentType => WithJsonContentType
  | CallWithAccept value => WithAccept value
  | CallWithAcceptJson => WithAcceptJson
  | CallWithBody body => WithBody body
  | CallWithJsonBody obj => WithJsonBody obj
  | CallWithCookie c => WithCookie c
  | CallWithCookieNameValue name value => WithCookieNameValue name value
  | CallWithContext ctx => WithContext ctx
  end.

(** [r.A(..).B(..)...]: the calls of a chain run left to right on the one
    builder. *)
Fixpoint chain (calls : list Config) : Go unit :=
  match calls with
  | [] => mret tt
  | c :: rest => call c;; chain rest
  end.

(** The error [json.Marshal] gives for the object of a WithJsonBody call. *)
Definition marshal_failure (c : Config) : option error :=
  match c with
  | CallWithJsonBody obj =>
      match json_Marshal obj with
      | inl _ => None
      | inr e => Some e
      end
  | _ => None
  end.

(** The header a call assigns. *)
Definition assigned (c : Config) : option (string * string) :=
  match c with
  | CallWithHeader header value => Some (header, value)
  | CallWithJWSAuth jws => Some ("Authorization", "Bearer " +:+ jws)
  | CallWithHost value => Some ("Host", value)
  | CallWithContentType value => Some ("Content-Type", value)
  | CallWithJsonContentType => Some ("Content-Type", "application/json")
  | CallWithAccept value => Some ("Accept", value)
  | CallWithAcceptJson => Some ("Accept", "application/json")
  | CallWithJsonBody _ => Some ("Content-Type", "application/json")
  | _ => None
  end.

(** The cookie a call appends. *)
Definition appended_cookie (c : Config) : option Cookie :=
  match c with
  | CallWithCookie c => Some c
  | CallWithCookieNameValue name value => Some (mkCookie name value false)
  | _ => None
  end.

End Program.

(** ** CompletedRequest and the decoder registry *)

Section Decoding.

(** The destination object a decoder fills. *)
Context {Target : Type}.

(** A response handler gets the Content-Type header value, the unread bytes
    of the body buffer, the destination and the strictness flag; it gives
    back its error (nil is [None]), what it left unread and the destination
    as it leaves it. *)
Definition ResponseHandler : Type :=
  string -> string -> Target -> bool -> option error * string * Target.

(** Modelled from the spec: the registry [knownHandlers] and its lookup
    [getHandler] are not in request_helpers.go; the spec gives a mapping from
    media-type string to decoder function, so a registry is a finite map and
    the lookup of an unregistered type finds nil. *)
Abbreviation Registry := (gmap string ResponseHandler).

Definition getHandler (knownHandlers : Registry) (mime : string)
    : option ResponseHandler :=
  knownHandlers !! mime.

Definition DisallowUnknownFields (c : CompletedRequest) : CompletedRequest :=
  mkCompleted (Recorder c) true.

(** [contentParts[0]]; [Split] never returns an empty slice. *)
Definition first_part (contentParts : list string) : string :=
  match contentParts with
  | [] => EmptyString
  | part :: _ => part
  end.

(** UnmarshalBodyToObject takes a destination object as input, and
    unmarshals the object in the response based on the Content-Type
    header. *)
Definition UnmarshalBodyToObject (knownHandlers : Registry)
    (c : CompletedRequest) (obj : Target)
    : option error * CompletedRequest * Target :=
  let ctype := Header_Get "Content-Type" (rec_HeaderMap (Recorder c)) in
  let contentParts := strings.Split ctype ";" in
  let content := strings.TrimSpace (first_part contentParts) in
  match getHandler knownHandlers content with
  | None => (Some (Errorf_s "unhandled content: " content), c, obj)
  | Some handler =>
      let '(err, unread, obj') :=
        handler ctype (rec_Body (Recorder c)) obj (Strict c) in
      (err,
       mkCompleted (mkRecorder (rec_Code (Recorder c)) (rec_HeaderMap (Recorder c))
                      unread) (Strict c),
       obj')
  end.

(** UnmarshalJsonToObject assumes that the response contains JSON and
    unmarshals it into the specified object; [Unmarshal] is [json.Unmarshal]
    on the buffer's bytes, which stay unread. *)
Definition UnmarshalJsonToObject
    (Unmarshal : string -> Target -> option error * Target)
    (c : CompletedRequest) (obj : Target) : option error * Target :=
  Unmarshal (rec_Body (Recorder c)) obj.

(** Code is a shortcut for response code *)
Definition Code (c : CompletedRequest) : Z := rec_Code (Recorder c).

End Decoding.

(** ** The JSON decoder behind application/json *)

Module json.

(** Modelled from the spec: the decoder for application/json and what it
    works on are not in request_helpers.go.  A JSON text, read. *)
#[warnings="-register-all"]
Inductive JSON : Type :=
  | JNull
  | JBool (b : bool)
  | JNumber (n : Z)
  | JString (s : string)
  | JArray (items : list JSON)
  | JObject (members : list (string * JSON)).

(** Modelled from the spec: what a field of the target's shape holds. *)
Inductive Kind : Type :=
  | KBool
  | KNumber
  | KString
  | KAny.

(** Modelled from the spec: the target of a decode, a structure with named
    fields of fixed kinds (its shape) and the values decoded into them. *)
Record Struct : Type := mkStruct {
  shape : list (string * Kind);
  slots : gmap string JSON;
}.

(** Modelled from the spec: the kind of the field [name], if the shape has
    that field. *)
Fixpoint kind_of (name : string) (fields : list (string * Kind))
    : option Kind :=
  match fields with
  | [] => None
  | field :: rest =>
      if decide (field.1 = name) then Some field.2 else kind_of name rest
  end.

Definition field_kind (name : string) (t : Struct) : option Kind :=
  kind_of name (shape t).

(** Modelled from the spec: a value of another kind than the field's is a
    type mismatch. *)
Definition fits (k : Kind) (v : JSON) : bool :=
  match k, v with
  | KAny, _ => true
  | KBool, JBool _ => true
  | KNumber, JNumber _ => true
  | KString, JString _ => true
  | _, _ => false
  end.

Section Decoder.

(** [encoding/json]'s reading of a text; [None] for a malformed one. *)
Variable parse : string -> option JSON.

(** Modelled from the spec: the decoder registered for application/json is
    not in request_helpers.go.  By the spec it decodes the body as JSON into
    the target, fails on malformed JSON and on a type mismatch, and in strict
    mode rejects an object field that is not in the target's shape where the
    lenient mode ignores it.  [decode_member] decodes one member. *)
Definition decode_member (strict : bool) (t : Struct)
    (member : string * JSON) : error + Struct :=
  match field_kind member.1 t with
  | Some kind =>
      if fits kind member.2
      then inr (mkStruct (shape t) (<[member.1 := member.2]> (slots t)))
      else inl (errorString ("json: cannot unmarshal into field " +:+ member.1))
  | None =>
      if strict
      then inl (errorString ("json: unknown field " +:+ member.1))
      else inr t
  end.

(** Modelled from the spec: the members of the object are decoded in order,
    up to the first failure. *)
Fixpoint decode_members (strict : bool) (t : Struct)
    (members : list (string * JSON)) : error + Struct :=
  match members with
  | [] => inr t
  | member :: rest =>
      match decode_member strict t member with
      | inl err => inl err
      | inr t' => decode_members strict t' rest
      end
  end.

(** Modelled from the spec: decoding a text into a structure; a failed
    decode leaves the structure as it was. *)
Definition Unmarshal (strict : bool) (data : string) (t : Struct)
    : option error * Struct :=
  match parse data with
  | None => (Some (errorString "invalid character in JSON text"), t)
  | Some (JObject members) =>
      match decode_members strict t members with
      | inl err => (Some err, t)
      | inr t' => (None, t')
      end
  | Some _ => (Some (errorString "json: cannot unmarshal into struct"), t)
  end.

(** Modelled from the spec: the handler seeded under application/json (named
    jsonHandler here); it ignores the content type, reads the whole body and
    decodes it, strictly when asked. *)
Definition jsonHandler : @ResponseHandler Struct :=
  fun _ raw obj strict =>
    let '(err, obj') := Unmarshal strict raw obj in
    (err, "", obj').

(** Modelled from the spec: the registry as seeded at initialization. *)
Definition seeded : gmap string (@ResponseHandler Struct) :=
  {[ "application/json" := jsonHandler ]}.

(** One operation on a CompletedRequest. *)
Inductive Inspect : Type :=
  | CallDisallowUnknownFields
  | CallUnmarshalBodyToObject (obj : Struct)
  | CallUnmarshalJsonToObject (obj : Struct)
  | CallCode.

(** The CompletedRequest an operation leaves. *)
Definition inspect (knownHandlers : gmap string (@ResponseHandler Struct))
    (c : CompletedRequest) (op : Inspect) : CompletedRequest :=
  match op with
  | CallDisallowUnknownFields => DisallowUnknownFields c
  | CallUnmarshalBodyToObject obj =>
      (UnmarshalBodyToObject knownHandlers c obj).1.2
  | CallUnmarshalJsonToObject obj => c
  | CallCode => c
  end.

End Decoder.

(** The members of an object the shape has a field for. *)
Definition known (t : Struct) (members : list (string * JSON))
    : list (string * JSON) :=
  filter (fun member => is_Some (field_kind member.1 t)) members.

End json.

(** ** Vocabulary of the statements *)

(** The store a program leaves, and what it returned. *)
Definition exec {A : Type} (m : Go A) (s : Store) : Store := (m s).2.
Definition result {A : Type} (m : Go A) (s : Store) : outcome A := (m s).1.

(** The value the last assignment to [header] in [sets] gave it. *)
Definition last_assigned (header : string) (sets : list (string * string))
    : option string :=
  snd <$> last (filter (fun hv => hv.1 = header) sets).

(** No other configured name has the canonical form of [header]. *)
Definition alone (header : string) (m : gmap string string) : Prop :=
  forall other, is_Some (m !! other) ->
    textproto.CanonicalMIMEHeaderKey other =
      textproto.CanonicalMIMEHeaderKey header ->
    other = header.

(** The values [order] holds for names whose canonical form is [key]. *)
Definition configured_for (key : string) (order : list (string * string))
    : list string :=
  omap (fun hv => if decide (textproto.CanonicalMIMEHeaderKey hv.1 = key)
                  then Some hv.2 else None) order.

(** [alone], checked on the entries of the map. *)
Definition alone_in (header : string) (l : list (string * string)) : bool :=
  forallb (fun kv =>
             if decide (textproto.CanonicalMIMEHeaderKey kv.1 =
                        textproto.CanonicalMIMEHeaderKey header)
             then bool_decide (kv.1 = header) else true) l.

(** The old Cookie header value as a list of parts: "" is no part. *)
Definition cookie_parts (old : string) : list string :=
  if decide (old = "") then [] else [old].

(** The builder's Headers map is allocated, as [NewRequest] leaves it. *)
Definition allocated (s : Store) : Prop := is_Some (Headers (builder s)).

(** [sub] occurs in [s]. *)
Definition contains (sub s : string) : Prop :=
  exists before after, s = before +:+ sub +:+ after.

(** [s] is a run of the given runes. *)
Inductive made_of (runes : list string) : string -> Prop :=
  | made_of_nil : made_of runes ""
  | made_of_cons p s :
      p ∈ runes -> made_of runes s -> made_of runes (p +:+ s).

(** [t] is [s] without its leading and trailing white space: white space
    runs surround [t] in [s], and [t] itself neither starts nor ends with a
    space rune. *)
Definition trimmed (s t : string) : Prop :=
  (exists l r, s = l +:+ t +:+ r
     /\ made_of strings.space_runes l /\ made_of strings.space_runes r)
  /\ (forall p rest, p ∈ strings.space_runes -> t <> p +:+ rest)
  /\ (forall p front, p ∈ strings.space_runes -> t <> front +:+ p).

(** ** A concrete library for examples

    It agrees with Go on the inputs the examples use: marshalling nil, a
    bool, a channel and a function; reading the request text of
    [GET / HTTP/1.0]; the cookie sanitizers of net/http. *)

Module Sample.

Inductive Value : Type :=
  | Nil
  | Bool (b : bool)
  | ChanInt
  | Func.

Definition Marshal (v : Value) : string + error :=
  match v with
  | Nil => inl "null"
  | Bool true => inl "true"
  | Bool false => inl "false"
  | ChanInt => inr (errorString "json: unsupported type: chan int")
  | Func => inr (errorString "json: unsupported type: func()")
  end.

(** What [http.ReadRequest] makes of a bare [GET / HTTP/1.0]. *)
Definition get_root : Request :=
  mkRequest "GET" "/" "HTTP/1.0" true "" ∅ "" 0 "" false context.Background.

Definition ReadRequest (text : string) : Request + error :=
  if decide (text = "GET / HTTP/1.0" +:+ CRLF +:+ CRLF)
  then inl get_root
  else inr (errorString "malformed HTTP request").

Fixpoint map_bytes (f : ascii -> ascii) (s : string) : string :=
  match s with
  | EmptyString => EmptyString
  | String c s' => String (f c) (map_bytes f s')
  end.

Fixpoint filter_bytes (p : ascii -> bool) (s : string) : string :=
  match s with
  | EmptyString => EmptyString
  | String c s' => if p c then String c (filter_bytes p s') else filter_bytes p s'
  end.

(** Line feed and carriage return become a dash. *)
Definition CookieName (n : string) : string :=
  map_bytes (fun c => if Bytes.mem c (strings.bytes_of [10; 13]%N)
                      then "-"%char else c) n.

Definition validCookieValueByte (c : ascii) : bool :=
  Bytes.in_range 32 126 c
  && negb (Bytes.mem c (strings.bytes_of [34; 59; 92]%N)).

(** Invalid bytes are dropped; the value is quoted when asked or when it
    holds a space or a comma. *)
Definition CookieValue (v : string) (quoted : bool) : string :=
  let v := filter_bytes validCookieValueByte v in
  if quoted || negb (Bytes.all (fun c => negb (Bytes.mem c " ,")) v)
  then strings.bytes_of [34]%N +:+ v +:+ strings.bytes_of [34]%N
  else v.

#[global] Instance library : Library Value :=
  {| json_Marshal := Marshal;
     http_ReadRequest := ReadRequest;
     sanitizeCookieName := CookieName;
     sanitizeCookieValue := CookieValue |}.

(** What [httptest.NewRequest("GET", "/", nil)] returns. *)
Definition root_request : Request :=
  mkRequest "GET" "/" "HTTP/1.1" false "example.com" ∅ "" 0
    "192.0.2.1:1234" false context.Background.

(** The store of a test that has just called [NewRequest()]. *)
Definition fresh : Store := mkStore NewRequest [] [].

(** A handler that answers 204 and writes nothing. *)
Definition no_content : Handler :=
  fun rec _ => Returned (mkRecorder 204 (rec_HeaderMap rec) (rec_Body rec)).

End Sample.

(** ** A reader for the JSON texts of the examples

    Objects, arrays, strings without escapes, integers, true, false and
    null; other texts are refused. *)

Module SampleJson.

Import json.

Fixpoint skip_space (s : string) : string :=
  match s with
  | String c rest =>
      if Bytes.mem c (strings.bytes_of [32; 9; 10; 13]%N)
      then skip_space rest else s
  | EmptyString => s
  end.

(** The bytes up to the closing quote, and what follows it. *)
Fixpoint read_string (s : string) : option (string * string) :=
  match s with
  | EmptyString => None
  | String c rest =>
      if Bytes.eqb c (ascii_of_N 34) then Some (EmptyString, rest)
      else if Bytes.eqb c (ascii_of_N 92) then None
      else match read_string rest with
           | Some (str, rest') => Some (String c str, rest')
           | None => None
           end
  end.

Fixpoint read_digits (acc : Z) (s : string) : Z * string :=
  match s with
  | String c rest =>
      if Bytes.is_digit c
      then read_digits (10 * acc + Z.of_N (Bytes.code c - 48)) rest
      else (acc, s)
  | EmptyString => (acc, s)
  end.

Definition starts_with_digit (s : string) : bool :=
  match s with
  | String c _ => Bytes.is_digit c
  | EmptyString => false
  end.

Fixpoint read_value (fuel : nat) (s : string) : option (JSON * string) :=
  match fuel with
  | O => None
  | S fuel' =>
      match skip_space s with
      | String c rest =>
          if Bytes.eqb c "{" then
            match skip_space rest with
            | String "}" rest' => Some (JObject [], rest')
            | _ => read_members fuel' rest []
            end
          else if Bytes.eqb c "[" then
            match skip_space rest with
            | String "]" rest' => Some (JArray [], rest')
            | _ => read_items fuel' rest []
            end
          else if Bytes.eqb c (ascii_of_N 34) then
            match read_string rest with
            | Some (str, rest') => Some (JString str, rest')
            | None => None
            end
          else if Bytes.eqb c "-" then
            if starts_with_digit rest
            then let '(n, rest') := read_digits 0 rest in
                 Some (JNumber (- n), rest')
            else None
          else if Bytes.is_digit c then
            let '(n, rest') := read_digits 0 (String c rest) in
            Some (JNumber n, rest')
          else
            match strings.cut_prefix "true" (String c rest),
                  strings.cut_prefix "false" (String c rest),
                  strings.cut_prefix "null" (String c rest) with
            | Some rest', _, _ => Some (JBool true, rest')
            | _, Some rest', _ => Some (JBool false, rest')
            | _, _, Some rest' => Some (JNull, rest')
            | _, _, _ => None
            end
      | EmptyString => None
      end
  end
with read_members (fuel : nat) (s : string) (acc : list (string * JSON))
    : option (JSON * string) :=
  match fuel with
  | O => None
  | S fuel' =>
      match skip_space s with
      | String c rest =>
          if Bytes.eqb c (ascii_of_N 34) then
            match read_string rest with
            | Some (key, rest1) =>
                match skip_space rest1 with
                | String ":" rest2 =>
                    match read_value fuel' rest2 with
                    | Some (v, rest3) =>
                        match skip_space rest3 with
                        | String "," rest4 =>
                            read_members fuel' rest4 (acc ++ [(key, v)])
                        | String "}" rest4 =>
                            Some (JObject (acc ++ [(key, v)]), rest4)
                        | _ => None
                        end
                    | None => None
                    end
                | _ => None
                end
            | None => None
            end
          else None
      | EmptyString => None
      end
  end
with read_items (fuel : nat) (s : string) (acc : list JSON)
    : option (JSON * string) :=
  match fuel with
  | O => None
  | S fuel' =>
      match read_value fuel' s with
      | Some (v, rest) =>
          match skip_space rest with
          | String "," rest' => read_items fuel' rest' (acc ++ [v])
          | String "]" rest' => Some (JArray (acc ++ [v]), rest')
          | _ => None
          end
      | None => None
      end
  end.

(** A whole text: one value, then only space. *)
Definition parse (s : string) : option JSON :=
  match read_value (S (String.length s)) s with
  | Some (v, rest) =>
      match skip_space rest with
      | EmptyString => Some v
      | _ => None
      end
  | None => None
  end.

(** [{"known":1,"unknown":2}] *)
Definition known_unknown : string :=
  strings.bytes_of
    [123; 34; 107; 110; 111; 119; 110; 34; 58; 49; 44;
     34; 117; 110; 107; 110; 111; 119; 110; 34; 58; 50; 125]%N.

(** A structure with only a [known] field, nothing decoded yet. *)
Definition only_known : Struct := mkStruct [("known", KNumber)] ∅.

(** A recorded 200 response with a JSON content type and that body. *)
Definition recorded : CompletedRequest :=
  mkCompleted
    (mkRecorder 200 {[ "Content-Type" := ["application/json; charset=utf-8"] ]}
       known_unknown)
    false.

(** A recorded response without a Content-Type header. *)
Definition untyped : CompletedRequest :=
  mkCompleted (mkRecorder 200 ∅ known_unknown) false.

(** A recorded response of an unregistered type. *)
Definition xml : CompletedRequest :=
  mkCompleted (mkRecorder 200 {[ "Content-Type" := ["text/xml"] ]} "<a/>")
    false.

End SampleJson.

(** ** Builders and chains of the examples *)

(** A builder that carries the error of marshalling a channel. *)
Definition failed_marshal : Store :=
  exec (WithJsonBody Sample.ChanInt) Sample.fresh.


(** A chain with two failing WithJsonBody calls and other calls around
    them. *)
Definition two_failures : list (@Config Sample.Value) :=
  [ CallGet "/"; CallWithJsonBody Sample.ChanInt; CallWithHeader "X-Id" "7";
    CallWithJsonBody (Sample.Bool true); CallWithJsonBody Sample.Func;
    CallWithAcceptJson ].

(** [NewRequest().Get("/").WithHost("api.test")] *)
Definition host_configured : Store :=
  exec (chain [CallGet "/"; CallWithHost "api.test"]) Sample.fresh.

(** Two spellings of one header name, then a dispatch. *)
Definition two_spellings : list (@Config Sample.Value) :=
  [ CallGet "/"; CallWithHeader "accept" "text/plain";
    CallWithHeader "Accept" "application/json" ].

(** A header set twice next to another one. *)
Definition accept_twice : list (@Config Sample.Value) :=
  [ CallGet "/"; CallWithHeader "Accept" "text/plain";
    CallWithHeader "X-Id" "7"; CallWithHeader "Accept" "application/json" ].

(** Three cookies, the first and the last alike. *)
Definition three_cookies : list (@Config Sample.Value) :=
  [ CallGet "/"; CallWithCookieNameValue "a" "1";
    CallWithCookie (mkCookie "b" "2" false); CallWithCookieNameValue "a" "1" ].

(** ** Vocabulary of the further properties *)

Section Settings.

Context {Obj : Type} {L : Library Obj}.

(** The method and path a call sets. *)
Definition method_set (c : @Config Obj) : option (string * string) :=
  match c with
  | CallWithMethod method path => Some (method, path)
  | CallGet path => Some ("GET", path)
  | CallPost path => Some ("POST", path)
  | CallPut path => Some ("PUT", path)
  | CallPatch path => Some ("PATCH", path)
  | CallDelete path => Some ("DELETE", path)
  | _ => None
  end.

(** The body a call leaves in the builder: WithBody its argument,
    WithJsonBody the marshalled bytes, or nil when marshalling fails. *)
Definition body_set (c : @Config Obj) : option (option string) :=
  match c with
  | CallWithBody body => Some body
  | CallWithJsonBody obj =>
      match json_Marshal obj with
      | inl b => Some (Some b)
      | inr _ => Some None
      end
  | _ => None
  end.

(** The context a call sets. *)
Definition context_set (c : @Config Obj) : option (option context.Context) :=
  match c with
  | CallWithContext ctx => Some ctx
  | _ => None
  end.

End Settings.

(** The zero value [RequestBuilder{}]: its Headers map is nil. *)
Definition zero_builder : RequestBuilder :=
  mkBuilder "" "" None None None [] None.

(** A store whose builder was not made by NewRequest. *)
Definition unallocated : Store := mkStore zero_builder [] [].

(** Calls that set method, body and context more than once. *)
Definition settings_twice : list (@Config Sample.Value) :=
  [ CallPost "/items"; CallWithBody (Some "a");
    CallWithContext (Some (context.WithValue 1));
    CallWithJsonBody (Sample.Bool false); CallGet "/";
    CallWithContext (Some (context.WithValue 2)) ].

(** The store [s] with the method of its builder replaced. *)
Definition with_method (method : string) (s : Store) : Store :=
  mkStore
    (mkBuilder method (Path (builder s)) (Headers (builder s))
       (Body (builder s)) (Error (builder s)) (Cookies (builder s))
       (Context (builder s)))
    (reported s) (served s).

(** A builder with the method left empty, a lower-case spelling of Host,
    an empty non-nil body and a context. *)
Definition lower_host : Store :=
  exec (chain [CallWithMethod "" "/"; CallWithHeader "host" "api.test";
               CallWithBody (Some "");
               CallWithContext (Some (context.WithValue 1))])
    Sample.fresh.

(** A builder whose path holds a space; net/http refuses the request line
    made of it. *)
Definition spaced_path : Store :=
  exec (chain [CallGet (Obj := Sample.Value) "a b"]) Sample.fresh.

(** No rune of the list is a proper prefix of another. *)
Definition prefix_free (runes : list string) : bool :=
  forallb (fun p =>
    forallb (fun q =>
      match strings.cut_prefix p q with
      | Some EmptyString => true
      | Some _ => false
      | None => true
      end) runes) runes.

(** No rune holds, after its first byte, a byte that starts a rune. *)
Definition self_synchronizing (runes : list string) : bool :=
  forallb (fun p =>
    forallb (fun q =>
      match p, q with
      | String _ inner, String x _ => negb (Bytes.mem x inner)
      | _, _ => true
      end) runes) runes.

(** A recorded response whose content type has white space around the
    media type and a parameter. *)
Definition padded : CompletedRequest :=
  mkCompleted
    (mkRecorder 200
       {[ "Content-Type" := [" application/json ;charset=utf-8"] ]}
       SampleJson.known_unknown)
    false.

(** * List and map facts *)

Lemma omap_step {A B : Type} (f : A -> option B) (x : A) (l : list A) :
  omap f (x :: l) = option_list (f x) ++ omap f l.
Proof. simpl. destruct (f x); reflexivity. Qed.

Lemma append_assoc (a b c : string) : (a +:+ b) +:+ c = a +:+ b +:+ c.
Proof.
  induction a as [|x a IH]; [reflexivity|].
  change (String x ((a +:+ b) +:+ c) = String x (a +:+ b +:+ c)).
  rewrite IH. reflexivity.
Qed.

(** Assignments in sequence: a name reads as its last assignment, or as it
    did before when none was made. *)
Lemma lookup_assignments (sets : list (string * string))
    (m : gmap string string) h :
  foldl (fun m hv => <[hv.1 := hv.2]> m) m sets !! h =
    match last_assigned h sets with
    | Some v => Some v
    | None => m !! h
    end.
Proof.
  unfold last_assigned.
  induction sets as [|[k w] sets IH] using rev_ind; [reflexivity|].
  rewrite foldl_snoc, filter_app. simpl.
  destruct (decide (k = h)) as [->|Hne].
  - rewrite lookup_insert_eq.
    rewrite (filter_cons_True (fun hv => hv.1 = h)) by reflexivity.
    rewrite filter_nil, last_snoc. reflexivity.
  - rewrite lookup_insert_ne by exact Hne.
    rewrite (filter_cons_False (fun hv => hv.1 = h)) by exact Hne.
    rewrite filter_nil, app_nil_r. exact IH.
Qed.

(** Among entries with distinct names, when [h] shares its canonical form
    with no other name, the values configured for that form are the one
    value of [h]. *)
Lemma configured_for_absent h (l : list (string * string)) :
  h ∉ l.*1 ->
  (forall k w, (k, w) ∈ l ->
     textproto.CanonicalMIMEHeaderKey k = textproto.CanonicalMIMEHeaderKey h ->
     k = h) ->
  configured_for (textproto.CanonicalMIMEHeaderKey h) l = [].
Proof.
  induction l as [|[k w] l IH]; intros Hin Halone; [reflexivity|].
  unfold configured_for. simpl.
  destruct (decide _) as [Hc|_].
  - exfalso. apply Hin. rewrite (Halone k w (list_elem_of_here _ _) Hc).
    simpl. apply list_elem_of_here.
  - apply IH.
    + intros Hl. apply Hin. simpl. apply list_elem_of_further. exact Hl.
    + intros k' w' Hk'. apply (Halone k' w'). apply list_elem_of_further. exact Hk'.
Qed.

Lemma configured_for_alone h v (l : list (string * string)) :
  NoDup l.*1 ->
  (h, v) ∈ l ->
  (forall k w, (k, w) ∈ l ->
     textproto.CanonicalMIMEHeaderKey k = textproto.CanonicalMIMEHeaderKey h ->
     k = h) ->
  configured_for (textproto.CanonicalMIMEHeaderKey h) l = [v].
Proof.
  induction l as [|[k w] l IH]; intros Hnd Hin Halone.
  - apply elem_of_nil in Hin. contradiction.
  - simpl in Hnd. apply NoDup_cons in Hnd as [Hk Hnd].
    assert (Hrest : forall k' w', (k', w') ∈ l ->
              textproto.CanonicalMIMEHeaderKey k' =
                textproto.CanonicalMIMEHeaderKey h -> k' = h).
    { intros k' w' Hk'. apply (Halone k' w'). apply list_elem_of_further. exact Hk'. }
    unfold configured_for. simpl.
    apply elem_of_cons in Hin as [Heq|Hin].
    + injection Heq as <- <-.
      destruct (decide _) as [_|Hne]; [|exfalso; apply Hne; reflexivity].
      f_equal. apply (configured_for_absent h l Hk Hrest).
    + destruct (decide _) as [Hc|_].
      * exfalso. apply Hk.
        rewrite (Halone k w (list_elem_of_here _ _) Hc).
        apply (list_elem_of_fmap_2 fst) in Hin. exact Hin.
      * apply (IH Hnd Hin Hrest).
Qed.

(** * Strings *)

Lemma append_nil_r (a : string) : a +:+ "" = a.
Proof.
  induction a as [|x a IH]; [reflexivity|].
  change (String x (a +:+ "") = String x a). rewrite IH. reflexivity.
Qed.

Lemma length_append (a b : string) :
  String.length (a +:+ b) = (String.length a + String.length b)%nat.
Proof.
  induction a as [|x a IH]; [reflexivity|].
  change (S (String.length (a +:+ b)) = S (String.length a + String.length b)).
  rewrite IH. reflexivity.
Qed.

Lemma rev_app_append (a b : string) :
  String.rev_app a b = String.rev a +:+ b.
Proof.
  revert b. induction a as [|x a IH]; intros b; [reflexivity|].
  unfold String.rev. simpl. rewrite (IH (String x b)), (IH (String x "")).
  rewrite append_assoc. reflexivity.
Qed.

Lemma rev_cons x (a : string) :
  String.rev (String x a) = String.rev a +:+ String x "".
Proof. unfold String.rev at 1. simpl. apply rev_app_append. Qed.

Lemma rev_append (a b : string) :
  String.rev (a +:+ b) = String.rev b +:+ String.rev a.
Proof.
  induction a as [|x a IH].
  - change (String.rev b = String.rev b +:+ ""). rewrite append_nil_r.
    reflexivity.
  - change (String.rev (String x (a +:+ b)) =
            String.rev b +:+ String.rev (String x a)).
    rewrite !rev_cons, IH, append_assoc. reflexivity.
Qed.

Lemma rev_involutive (a : string) : String.rev (String.rev a) = a.
Proof.
  induction a as [|x a IH]; [reflexivity|].
  rewrite rev_cons, rev_append, IH. reflexivity.
Qed.

Lemma length_rev (a : string) : String.length (String.rev a) = String.length a.
Proof.
  induction a as [|x a IH]; [reflexivity|].
  rewrite rev_cons, length_append, IH. simpl. lia.
Qed.

Lemma eqb_true (a b : ascii) : Bytes.eqb a b = true <-> a = b.
Proof. apply Ascii.eqb_eq. Qed.

Lemma cut_prefix_Some p : forall s rest,
  strings.cut_prefix p s = Some rest <-> s = p +:+ rest.
Proof.
  induction p as [|a p IH]; intros s rest; simpl.
  - split; [intros [= ->]; reflexivity | intros ->; reflexivity].
  - destruct s as [|b s].
    + split; [discriminate|]. intros H. discriminate H.
    + destruct (Bytes.eqb a b) eqn:Hab.
      * apply eqb_true in Hab. subst b. rewrite IH.
        split; [intros ->; reflexivity|].
        intros H. injection H as H. exact H.
      * split; [discriminate|]. intros H. injection H as Hb _.
        subst b. unfold Bytes.eqb in Hab. rewrite Ascii.eqb_refl in Hab.
        discriminate.
Qed.

Lemma cut_space_Some runes s rest :
  strings.cut_space runes s = Some rest ->
  exists p, p ∈ runes /\ s = p +:+ rest.
Proof.
  induction runes as [|q runes IH]; simpl; [discriminate|].
  destruct (strings.cut_prefix q s) as [rest'|] eqn:Hq.
  - intros [= ->]. exists q. split; [apply list_elem_of_here|].
    apply cut_prefix_Some. exact Hq.
  - intros H. destruct (IH H) as (p & Hp & Hs).
    exists p. split; [apply list_elem_of_further; exact Hp | exact Hs].
Qed.

Lemma cut_space_None runes s :
  strings.cut_space runes s = None ->
  forall p rest, p ∈ runes -> s <> p +:+ rest.
Proof.
  induction runes as [|q runes IH]; simpl; intros Hnone p rest Hp.
  - apply elem_of_nil in Hp. contradiction.
  - destruct (strings.cut_prefix q s) as [rest'|] eqn:Hq; [discriminate|].
    apply elem_of_cons in Hp as [->|Hp].
    + intros Hs. apply cut_prefix_Some in Hs. congruence.
    + apply IH; assumption.
Qed.

(** With fuel for every byte, [trim_left] drops a run of runes and stops
    where no rune starts. *)
Lemma trim_left_spec runes :
  (forall p, p ∈ runes -> p <> "") ->
  forall fuel s, (String.length s <= fuel)%nat ->
    exists l, s = l +:+ strings.trim_left runes fuel s
      /\ made_of runes l
      /\ strings.cut_space runes (strings.trim_left runes fuel s) = None.
Proof.
  intros Hne. induction fuel as [|fuel IH]; intros s Hlen.
  - destruct s; [|simpl in Hlen; lia]. simpl. exists "".
    split; [reflexivity|]. split; [constructor|].
    destruct (strings.cut_space runes "") as [rest|] eqn:Hcut; [|reflexivity].
    destruct (cut_space_Some _ _ _ Hcut) as (p & Hp & Hs).
    destruct p; [destruct (Hne _ Hp); reflexivity | discriminate Hs].
  - simpl. destruct (strings.cut_space runes s) as [rest|] eqn:Hcut.
    + destruct (cut_space_Some _ _ _ Hcut) as (p & Hp & Hs).
      assert (Hrest : (String.length rest <= fuel)%nat).
      { subst s. rewrite length_append in Hlen.
        specialize (Hne p Hp). destruct p; [congruence|].
        simpl in Hlen. lia. }
      destruct (IH rest Hrest) as (l & Hl & Hmade & Hstop).
      exists (p +:+ l). split; [|split; [constructor; assumption | exact Hstop]].
      rewrite append_assoc, <- Hl. exact Hs.
    + exists "". split; [reflexivity|]. split; [constructor | exact Hcut].
Qed.

Lemma made_of_append runes a b :
  made_of runes a -> made_of runes b -> made_of runes (a +:+ b).
Proof.
  induction 1 as [|p s Hp Hs IH]; intros Hb; [exact Hb|].
  rewrite append_assoc. constructor; auto.
Qed.

Lemma made_of_rev runes a :
  made_of (map String.rev runes) a -> made_of runes (String.rev a).
Proof.
  induction 1 as [|p s Hp Hs IH]; [constructor|].
  rewrite rev_append. apply made_of_append; [exact IH|].
  apply list_elem_of_fmap in Hp as (q & -> & Hq).
  rewrite rev_involutive. rewrite <- (append_nil_r q).
  constructor; [exact Hq | constructor].
Qed.

Lemma space_runes_nonempty p : p ∈ strings.space_runes -> p <> "".
Proof.
  intros Hp ->. revert Hp. unfold strings.space_runes. simpl.
  rewrite !elem_of_cons, elem_of_nil.
  intros H. repeat (destruct H as [H|H]; [discriminate H|]). exact H.
Qed.

Lemma rev_nonempty (p : string) : p <> "" -> String.rev p <> "".
Proof.
  intros Hp Hr. apply Hp. rewrite <- (rev_involutive p), Hr. reflexivity.
Qed.

(** TrimSpace meets its description. *)
Lemma TrimSpace_trimmed s : trimmed s (strings.TrimSpace s).
Proof.
  unfold strings.TrimSpace, strings.TrimRightSpace, strings.TrimLeftSpace.
  destruct (trim_left_spec strings.space_runes space_runes_nonempty
              (String.length s) s (le_n _)) as (l & Hl & Hml & Hstop).
  set (t1 := strings.trim_left strings.space_runes (String.length s) s) in *.
  assert (Hne : forall p, p ∈ map String.rev strings.space_runes -> p <> "").
  { intros p Hp. apply list_elem_of_fmap in Hp as (q & -> & Hq).
    apply rev_nonempty, space_runes_nonempty, Hq. }
  destruct (trim_left_spec (map String.rev strings.space_runes) Hne
              (String.length t1) (String.rev t1))
    as (l' & Hl' & Hml' & Hstop').
  { rewrite length_rev. apply le_n. }
  set (u := strings.trim_left (map String.rev strings.space_runes)
              (String.length t1) (String.rev t1)) in *.
  assert (Ht1 : t1 = String.rev u +:+ String.rev l').
  { rewrite <- rev_append, <- Hl'. symmetry. apply rev_involutive. }
  split; [|split].
  - exists l, (String.rev l'). split; [|split].
    + rewrite <- Ht1. exact Hl.
    + exact Hml.
    + apply made_of_rev. exact Hml'.
  - intros p rest Hp Ht.
    apply (cut_space_None _ _ Hstop p (rest +:+ String.rev l') Hp).
    rewrite Ht1, Ht. apply append_assoc.
  - intros p front Hp Ht.
    apply (cut_space_None _ _ Hstop' (String.rev p) (String.rev front)).
    + apply (list_elem_of_fmap_2 String.rev). exact Hp.
    + rewrite <- rev_append, <- Ht. symmetry. apply rev_involutive.
Qed.

(** The first piece of a split: what precedes the first separator. *)
Lemma Split_first sep s :
  exists bare params,
    first_part (strings.Split s sep) = bare
    /\ s = bare +:+ params
    /\ Bytes.mem sep bare = false
    /\ (params = "" \/ exists rest, params = String sep rest).
Proof.
  induction s as [|c s (bare & params & Hfirst & Hs & Hmem & Hparams)].
  - exists "", "". simpl. auto.
  - simpl. destruct (Bytes.eqb c sep) eqn:Hc.
    + apply eqb_true in Hc. subst c.
      exists "", (String sep s). simpl. eauto 10.
    + exists (String c bare), params.
      destruct (strings.Split s sep) as [|piece pieces]; simpl in *.
      * subst bare. simpl. split; [reflexivity|].
        split; [rewrite Hs; reflexivity|]. split; [|exact Hparams].
        unfold Bytes.eqb in *. rewrite Ascii.eqb_sym, Hc. reflexivity.
      * subst piece. split; [reflexivity|].
        split; [rewrite Hs; reflexivity|]. split; [|exact Hparams].
        unfold Bytes.eqb in *. rewrite Ascii.eqb_sym, Hc. exact Hmem.
Qed.

(** * Dispatch *)

Section Dispatch.

Context {Obj : Type} {L : Library Obj}.

Lemma dispatch_deferred order handler s err :
  Error (builder s) = Some err ->
  GoWithHTTPHandler order handler s =
    (Returned None,
     mkStore (builder s)
       (reported s ++ [mkErrorf "error constructing request: %s" [err]])
       (served s)).
Proof.
  intros Herr. unfold GoWithHTTPHandler, mbind, Go_bind, load. simpl.
  rewrite Herr. reflexivity.
Qed.

(** C1: with a deferred construction error in the builder, dispatch calls
    the reporter's Errorf exactly once (one call is appended to the calls
    made so far), returns nil, and hands no request to the handler. *)
Theorem deferred_error_reported_once order handler s err :
  Error (builder s) = Some err ->
  result (GoWithHTTPHandler order handler) s = Returned None
  /\ reported (exec (GoWithHTTPHandler order handler) s) =
       reported s ++ [mkErrorf "error constructing request: %s" [err]]
  /\ served (exec (GoWithHTTPHandler order handler) s) = served s.
Proof.
  intros Herr. unfold result, exec.
  rewrite (dispatch_deferred order handler s err Herr). auto.
Qed.

(** C9: dispatch leaves the builder as it found it, on every path: the
    deferred error, a refused request line, a handler that returns and one
    that panics. *)
Theorem dispatch_preserves_builder order handler s :
  builder (exec (GoWithHTTPHandler order handler) s) = builder s.
Proof.
  unfold exec, GoWithHTTPHandler, mbind, Go_bind, load. simpl.
  destruct (Error (builder s)) as [err|]; [reflexivity|].
  unfold httptest_NewRequest.
  destruct (http_ReadRequest _) as [req|err]; simpl; [|reflexivity].
  unfold ServeHTTP.
  match goal with |- context [handler ?a ?b] => destruct (handler a b) end;
    reflexivity.
Qed.

End Dispatch.

Lemma deferred_error_reported_once_witness :
  Error (builder failed_marshal) =
    Some (Errorf_w "failed to marshal json object: "
            (errorString "json: unsupported type: chan int"))
  /\ result (GoWithHTTPHandler [] Sample.no_content) failed_marshal
     = Returned None
  /\ reported (exec (GoWithHTTPHandler [] Sample.no_content) failed_marshal) =
       [mkErrorf "error constructing request: %s"
          [Errorf_w "failed to marshal json object: "
             (errorString "json: unsupported type: chan int")]]
  /\ served (exec (GoWithHTTPHandler [] Sample.no_content) failed_marshal) = [].
Proof.
  split; [reflexivity|].
  apply (deferred_error_reported_once [] Sample.no_content failed_marshal).
  reflexivity.
Defined.

(** * Configuration *)

Section Configuration.

Context {Obj : Type} {L : Library Obj}.

Ltac run := unfold mbind, Go_bind, load, store, mret, Go_ret; simpl.

Lemma assign_header_allocated header value s :
  allocated s ->
  exists m, Headers (builder s) = Some m
    /\ assign_header header value s =
         (Returned tt,
          mkStore (mkBuilder (Method (builder s)) (Path (builder s))
                     (Some (<[header := value]> m)) (Body (builder s))
                     (Error (builder s)) (Cookies (builder s))
                     (Context (builder s)))
            (reported s) (served s)).
Proof.
  intros [m Hm]. exists m. split; [exact Hm|].
  unfold assign_header. run. rewrite Hm. reflexivity.
Qed.

(** What one configuration call does to a builder whose map is allocated:
    it returns, keeps the map allocated and the logs as they were, and only
    a failing WithJsonBody touches the deferred error. *)
Lemma assign_header_returns header value s :
  allocated s ->
  exists s', assign_header header value s = (Returned tt, s')
    /\ allocated s'
    /\ reported s' = reported s
    /\ served s' = served s
    /\ Cookies (builder s') = Cookies (builder s)
    /\ Error (builder s') = Error (builder s)
    /\ Body (builder s') = Body (builder s)
    /\ entries (builder s') = <[header := value]> (entries (builder s)).
Proof.
  intros Hs.
  destruct (assign_header_allocated header value s Hs) as (m & Hm & ->).
  eexists. split; [reflexivity|]. unfold allocated, entries. simpl.
  rewrite Hm. simpl. eauto 10.
Qed.

(** WithJsonBody on an allocated builder: body and error follow the
    marshalling, then the content type is assigned. *)
Lemma WithJsonBody_returns obj s :
  allocated s ->
  exists s', WithJsonBody obj s = (Returned tt, s')
    /\ allocated s'
    /\ reported s' = reported s
    /\ served s' = served s
    /\ Cookies (builder s') = Cookies (builder s)
    /\ entries (builder s') =
         <["Content-Type" := "application/json"]> (entries (builder s))
    /\ match json_Marshal obj with
       | inl b => Body (builder s') = Some b
                  /\ Error (builder s') = Error (builder s)
       | inr e => Body (builder s') = None
                  /\ Error (builder s') =
                       Some (Errorf_w "failed to marshal json object: " e)
       end.
Proof.
  intros Hs. unfold WithJsonBody.
  destruct (json_Marshal obj) as [b|e]; run;
    unfold WithJsonContentType, WithContentType, WithHeader;
    match goal with
    | |- context [assign_header ?h ?v ?s0] =>
        destruct (assign_header_returns h v s0) as
          (s' & -> & Ha & Hr & Hv & Hc & He & Hb & Hm);
          [exact Hs|]
    end;
    exists s'; simpl in *; auto 10.
Qed.

(** What one configuration call does to a builder whose map is allocated:
    it returns, keeps the map allocated and the logs as they were, appends
    its cookie if it has one, and only a failing WithJsonBody touches the
    deferred error. *)
Lemma call_returns c s :
  allocated s ->
  exists s', call c s = (Returned tt, s')
    /\ allocated s'
    /\ reported s' = reported s
    /\ served s' = served s
    /\ Cookies (builder s') =
         Cookies (builder s) ++ option_list (appended_cookie c)
    /\ Error (builder s') =
         match marshal_failure c with
         | Some e => Some (Errorf_w "failed to marshal json object: " e)
         | None => Error (builder s)
         end
    /\ entries (builder s') =
         match assigned c with
         | Some hv => <[hv.1 := hv.2]> (entries (builder s))
         | None => entries (builder s)
         end.
Proof.
  intros Hs.
  destruct c; simpl;
    unfold WithAcceptJson, WithAccept, WithJsonContentType, WithContentType,
      WithHost, WithJWSAuth, WithHeader.
  all: try match goal with
    | |- context [assign_header ?h ?v ?s0] =>
        destruct (assign_header_returns h v s0 Hs) as
          (s' & -> & Ha & Hr & Hv & Hc & He & _ & Hm);
        exists s'; rewrite Hc, He, Hm, app_nil_r; auto 10
    end.
  all: try (unfold Get, Post, Put, Patch, Delete, WithMethod, WithBody,
              WithCookieNameValue, WithCookie, WithContext; run;
            eexists; split; [reflexivity|]; simpl;
            rewrite ?app_nil_r; auto 10; fail).
  destruct (WithJsonBody_returns obj s Hs) as
    (s' & -> & Ha & Hr & Hv & Hc & He & Hm).
  exists s'. rewrite Hc, He, app_nil_r.
  destruct (json_Marshal obj); destruct Hm as [_ ->]; auto 10.
Qed.

(** A chain of calls on an allocated builder returns; its cookies are the
    ones appended, in call order, and its deferred error is that of the last
    WithJsonBody whose marshalling failed. *)
Lemma chain_returns calls : forall s,
  allocated s ->
  exists s', chain calls s = (Returned tt, s')
    /\ allocated s'
    /\ reported s' = reported s
    /\ served s' = served s
    /\ Cookies (builder s') =
         Cookies (builder s) ++ omap appended_cookie calls
    /\ Error (builder s') =
         match last (omap marshal_failure calls) with
         | Some e => Some (Errorf_w "failed to marshal json object: " e)
         | None => Error (builder s)
         end
    /\ entries (builder s') =
         foldl (fun m hv => <[hv.1 := hv.2]> m) (entries (builder s))
           (omap assigned calls).
Proof.
  induction calls as [|c calls IH]; intros s Hs.
  - exists s. simpl. rewrite app_nil_r. auto 10.
  - destruct (call_returns c s Hs)
      as (s1 & Hc & H1 & Hr1 & Hv1 & Hk1 & He1 & Hm1).
    destruct (IH s1 H1) as (s2 & Hch & H2 & Hr2 & Hv2 & Hk2 & He2 & Hm2).
    exists s2. simpl chain. unfold mbind, Go_bind. rewrite Hc, Hch.
    split; [reflexivity|]. split; [exact H2|].
    split; [congruence|]. split; [congruence|]. split; [|split].
    3: { rewrite Hm2, Hm1, (omap_step assigned).
         destruct (assigned c); reflexivity. }
    + rewrite Hk2, Hk1.
      rewrite (omap_step appended_cookie).
      rewrite app_assoc. reflexivity.
    + rewrite He2, He1.
      rewrite (omap_step marshal_failure).
      destruct (marshal_failure c) as [e|]; simpl; [|reflexivity].
      rewrite last_cons.
      destruct (last (omap marshal_failure calls)); reflexivity.
Qed.

End Configuration.

Section Deferred.

Context {Obj : Type} {L : Library Obj}.

(** C3 (amended): any chain of configuration calls on a builder made by
    NewRequest returns the builder, and the one deferred error it retains is
    that of the last WithJsonBody whose marshalling failed; no other call,
    a later successful WithJsonBody included, changes or clears a recorded
    error. *)
Theorem deferred_error_last_failure_wins (calls : list Config) s :
  allocated s ->
  result (chain calls) s = Returned tt
  /\ Error (builder (exec (chain calls) s)) =
       match last (omap marshal_failure calls) with
       | Some e => Some (Errorf_w "failed to marshal json object: " e)
       | None => Error (builder s)
       end.
Proof.
  intros Hs. unfold result, exec.
  destruct (chain_returns calls s Hs) as (s' & -> & _ & _ & _ & _ & He & _).
  split; [reflexivity | exact He].
Qed.

(** C4: WithJsonBody returns without raising, sets Content-Type to
    application/json and reports nothing; when marshalling succeeds the body
    is the serialization and the deferred error is untouched; when it fails
    the failure is recorded as the deferred error, and a later dispatch
    reports that error and returns nil. *)
Theorem WithJsonBody_body_and_content_type obj s :
  allocated s ->
  result (WithJsonBody obj) s = Returned tt
  /\ entries (builder (exec (WithJsonBody obj) s)) !! "Content-Type"
     = Some "application/json"
  /\ reported (exec (WithJsonBody obj) s) = reported s
  /\ match json_Marshal obj with
     | inl b =>
         Body (builder (exec (WithJsonBody obj) s)) = Some b
         /\ Error (builder (exec (WithJsonBody obj) s)) = Error (builder s)
     | inr e =>
         Error (builder (exec (WithJsonBody obj) s)) =
           Some (Errorf_w "failed to marshal json object: " e)
         /\ forall order handler,
              result (GoWithHTTPHandler order handler)
                (exec (WithJsonBody obj) s) = Returned None
              /\ reported (exec (GoWithHTTPHandler order handler)
                             (exec (WithJsonBody obj) s)) =
                   reported s ++
                   [mkErrorf "error constructing request: %s"
                      [Errorf_w "failed to marshal json object: " e]]
     end.
Proof.
  intros Hs.
  destruct (WithJsonBody_returns obj s Hs) as
    (s' & Hrun & _ & Hr & _ & _ & Hm & Hj).
  assert (Hres : result (WithJsonBody obj) s = Returned tt)
    by (unfold result; rewrite Hrun; reflexivity).
  assert (Hexec : exec (WithJsonBody obj) s = s')
    by (unfold exec; rewrite Hrun; reflexivity).
  rewrite Hres, Hexec.
  split; [reflexivity|]. split; [rewrite Hm; apply lookup_insert_eq|].
  split; [exact Hr|].
  destruct (json_Marshal obj) as [b|e]; [exact Hj|].
  destruct Hj as [_ He]. split; [exact He|]. intros order handler.
  unfold result, exec.
  rewrite (dispatch_deferred order handler s' _ He). simpl.
  rewrite Hr. auto.
Qed.

End Deferred.

Lemma fresh_allocated : allocated Sample.fresh.
Proof. exists ∅. reflexivity. Qed.

Lemma deferred_error_last_failure_wins_witness :
  allocated Sample.fresh
  /\ result (chain two_failures) Sample.fresh = Returned tt
  /\ Error (builder (exec (chain two_failures) Sample.fresh)) =
       Some (Errorf_w "failed to marshal json object: "
               (errorString "json: unsupported type: func()")).
Proof.
  split; [exact fresh_allocated|].
  exact (deferred_error_last_failure_wins two_failures Sample.fresh
           fresh_allocated).
Defined.

(** C3 as stated fails: the builder holds the error of marshalling a
    channel; a later WithJsonBody on a function returns the builder and
    replaces that error with its own. *)
Lemma first_error_overwritten :
  Error (builder failed_marshal) =
    Some (Errorf_w "failed to marshal json object: "
            (errorString "json: unsupported type: chan int"))
  /\ result (WithJsonBody Sample.Func) failed_marshal = Returned tt
  /\ Error (builder (exec (WithJsonBody Sample.Func) failed_marshal)) =
       Some (Errorf_w "failed to marshal json object: "
               (errorString "json: unsupported type: func()"))
  /\ Error (builder (exec (WithJsonBody Sample.Func) failed_marshal))
     <> Error (builder failed_marshal).
Proof.
  split; [reflexivity|]. split; [reflexivity|]. split; [reflexivity|].
  discriminate.
Qed.

Lemma WithJsonBody_body_and_content_type_witness :
  allocated Sample.fresh
  /\ entries (builder (exec (WithJsonBody (Sample.Bool true)) Sample.fresh))
       !! "Content-Type" = Some "application/json"
  /\ Body (builder (exec (WithJsonBody (Sample.Bool true)) Sample.fresh))
     = Some "true".
Proof.
  split; [exact fresh_allocated|].
  destruct (WithJsonBody_body_and_content_type (Sample.Bool true) Sample.fresh
              fresh_allocated) as (_ & Hct & _ & Hbody & _).
  split; [exact Hct | exact Hbody].
Defined.

(** * The synthesized request *)

Section Synthesized.

Context {Obj : Type} {L : Library Obj}.

Lemma canonical_Cookie : textproto.CanonicalMIMEHeaderKey "Cookie" = "Cookie".
Proof. reflexivity. Qed.

Lemma canonical_Host : textproto.CanonicalMIMEHeaderKey "Host" = "Host".
Proof. reflexivity. Qed.

Lemma values_insert k k' vs (h : Header) :
  values k (<[k' := vs]> h) = if decide (k' = k) then vs else values k h.
Proof.
  unfold values. destruct (decide (k' = k)) as [->|Hne].
  - rewrite lookup_insert_eq. reflexivity.
  - rewrite lookup_insert_ne by exact Hne. reflexivity.
Qed.

Lemma values_Header_Add k key v (h : Header) :
  values k (Header_Add key v h) =
    if decide (textproto.CanonicalMIMEHeaderKey key = k)
    then values k h ++ [v] else values k h.
Proof.
  unfold Header_Add. rewrite values_insert.
  destruct (decide _) as [->|]; reflexivity.
Qed.

(** The header loop: under each key, the values already there, then those
    configured for the key in iteration order. *)
Lemma values_add_headers k order : forall req,
  values k (req_Header (foldl add_header req order)) =
    values k (req_Header req) ++ configured_for k order.
Proof.
  induction order as [|[h v] order IH]; intros req; simpl.
  - rewrite app_nil_r. reflexivity.
  - rewrite IH. simpl. rewrite values_Header_Add. unfold configured_for.
    simpl. destruct (decide _); simpl; rewrite <- ?app_assoc; reflexivity.
Qed.

Lemma Header_Get_values key (h : Header) :
  Header_Get key h =
    match values (textproto.CanonicalMIMEHeaderKey key) h with
    | [] => ""
    | v :: _ => v
    end.
Proof. reflexivity. Qed.

Lemma AddCookie_Host req c : req_Host (AddCookie req c) = req_Host req.
Proof. unfold AddCookie. destruct (decide _); reflexivity. Qed.

Lemma AddCookie_values k req c :
  k <> "Cookie" ->
  values k (req_Header (AddCookie req c)) = values k (req_Header req).
Proof.
  intros Hk. unfold AddCookie, Header_Set. rewrite canonical_Cookie.
  destruct (decide _); simpl; rewrite values_insert;
    (destruct (decide ("Cookie" = k)) as [Heq|_];
     [exfalso; apply Hk; symmetry; exact Heq | reflexivity]).
Qed.

Lemma attach_Host cs : forall req,
  req_Host (foldl AddCookie req cs) = req_Host req.
Proof.
  induction cs as [|c cs IH]; intros req; simpl; [reflexivity|].
  rewrite IH. apply AddCookie_Host.
Qed.

Lemma attach_values k cs : forall req,
  k <> "Cookie" ->
  values k (req_Header (foldl AddCookie req cs)) = values k (req_Header req).
Proof.
  induction cs as [|c cs IH]; intros req Hk; simpl; [reflexivity|].
  rewrite IH by exact Hk. apply AddCookie_values. exact Hk.
Qed.

Lemma cookie_pair_nonempty c : cookie_pair c <> "".
Proof.
  unfold cookie_pair. destruct (sanitizeCookieName (Name c)); discriminate.
Qed.

(** One AddCookie leaves a single Cookie value: the pair, after the old
    value and "; " when there was one. *)
Lemma AddCookie_Cookie req c :
  values "Cookie" (req_Header (AddCookie req c)) =
    [String.concat "; "
       (cookie_parts (Header_Get "Cookie" (req_Header req))
        ++ [cookie_pair c])].
Proof.
  unfold AddCookie, Header_Set, cookie_parts. rewrite canonical_Cookie.
  destruct (decide _); simpl; rewrite values_insert;
    (destruct (decide ("Cookie" = "Cookie")) as [_|Hne];
     [reflexivity | exfalso; apply Hne; reflexivity]).
Qed.

Lemma concat_cons_cons sep (x y : string) l :
  String.concat sep (x :: y :: l) = x +:+ sep +:+ String.concat sep (y :: l).
Proof. reflexivity. Qed.

Lemma concat_snoc_cons sep (parts : list string) (x y : string) l :
  String.concat sep (parts ++ [x]) +:+ sep +:+ String.concat sep (y :: l) =
  String.concat sep (parts ++ x :: y :: l).
Proof.
  induction parts as [|p parts IH]; [reflexivity|].
  destruct parts as [|q parts].
  - change ((p +:+ sep +:+ x) +:+ sep +:+ String.concat sep (y :: l) =
            p +:+ sep +:+ x +:+ sep +:+ String.concat sep (y :: l)).
    rewrite !append_assoc. reflexivity.
  - change ((p +:+ sep +:+ String.concat sep ((q :: parts) ++ [x]))
              +:+ sep +:+ String.concat sep (y :: l) =
            p +:+ sep +:+ String.concat sep ((q :: parts) ++ x :: y :: l)).
    rewrite <- IH. rewrite !append_assoc. reflexivity.
Qed.

(** The cookie loop: the Cookie header becomes the old value, if any, and
    the pairs of the cookies in list order, joined by "; ". *)
Lemma attach_Cookie cs : forall req,
  cs <> [] ->
  values "Cookie" (req_Header (foldl AddCookie req cs)) =
    [String.concat "; "
       (cookie_parts (Header_Get "Cookie" (req_Header req))
        ++ map cookie_pair cs)].
Proof.
  induction cs as [|c cs IH]; intros req Hne; [congruence|].
  destruct cs as [|c' cs].
  - simpl. apply AddCookie_Cookie.
  - change (foldl AddCookie req (c :: c' :: cs))
      with (foldl AddCookie (AddCookie req c) (c' :: cs)).
    rewrite IH by discriminate.
    rewrite Header_Get_values, canonical_Cookie, AddCookie_Cookie.
    f_equal. unfold cookie_parts at 1.
    destruct (decide _) as [Hempty|_].
    + exfalso. revert Hempty. unfold cookie_parts.
      destruct (decide _); simpl.
      * apply cookie_pair_nonempty.
      * intros Hempty.
        destruct (Header_Get "Cookie" (req_Header req)) as [|x old];
          [apply n; reflexivity | discriminate Hempty].
    + change (map cookie_pair (c :: c' :: cs))
        with (cookie_pair c :: cookie_pair c' :: map cookie_pair cs).
      change (map cookie_pair (c' :: cs))
        with (cookie_pair c' :: map cookie_pair cs).
      apply (concat_snoc_cons "; ").
Qed.

Lemma NewRequest_store method target body s :
  (httptest_NewRequest method target body s).2 = s.
Proof.
  unfold httptest_NewRequest.
  destruct (http_ReadRequest _); reflexivity.
Qed.

(** A dispatch with no deferred error and an accepted request line serves
    exactly one request: the one NewRequest returned, after the header loop,
    the host override, the cookie loop and the context. *)
Lemma dispatch_serves order handler s req0 :
  Error (builder s) = None ->
  result (httptest_NewRequest (Method (builder s)) (Path (builder s))
            (Body (builder s))) s = Returned req0 ->
  exists req,
    served (exec (GoWithHTTPHandler order handler) s) = served s ++ [req]
    /\ reported (exec (GoWithHTTPHandler order handler) s) = reported s
    /\ result (GoWithHTTPHandler order handler) s =
         match handler NewRecorder req with
         | Returned rec => Returned (Some (mkCompleted rec false))
         | Panicked msg => Panicked msg
         end
    /\ req =
         let req1 := foldl add_header req0 order in
         let req2 := match entries (builder s) !! "Host" with
                     | Some host => set_Host host req1
                     | None => req1
                     end in
         let req3 := foldl AddCookie req2 (Cookies (builder s)) in
         match Context (builder s) with
         | Some ctx => http.WithContext ctx req3
         | None => req3
         end.
Proof.
  intros Herr Hnew.
  eexists. split; [|split; [|split; [|reflexivity]]].
  all: unfold exec, result, GoWithHTTPHandler, mbind, Go_bind, load; simpl.
  all: rewrite Herr.
  all: pose proof (NewRequest_store (Method (builder s)) (Path (builder s))
                     (Body (builder s)) s) as Hst.
  all: unfold result in Hnew.
  all: destruct (httptest_NewRequest _ _ _ s) as [out s1]; simpl in *; subst.
  all: unfold ServeHTTP.
  all: match goal with
       | |- context [?h NewRecorder ?b] => destruct (h NewRecorder b)
       end; reflexivity.
Qed.

End Synthesized.

Section Wire.

Context {Obj : Type} {L : Library Obj}.

(** C2 (amended): when the Headers map holds "Host", the request handed to
    the handler has that value as its host field, and the value is also
    among the values of its Host header, added by the header loop like any
    other entry. *)
Theorem host_header_sets_host_field order handler s host req0 :
  Error (builder s) = None ->
  entries (builder s) !! "Host" = Some host ->
  range_of (builder s) order ->
  result (httptest_NewRequest (Method (builder s)) (Path (builder s))
            (Body (builder s))) s = Returned req0 ->
  exists req,
    served (exec (GoWithHTTPHandler order handler) s) = served s ++ [req]
    /\ req_Host req = host
    /\ host ∈ values "Host" (req_Header req).
Proof.
  intros Herr Hhost Horder Hnew.
  destruct (dispatch_serves order handler s req0 Herr Hnew)
    as (req & Hserved & _ & _ & Hreq).
  exists req. split; [exact Hserved|].
  rewrite Hhost in Hreq. simpl in Hreq.
  assert (Hin : host ∈ configured_for "Host" order).
  { unfold configured_for. apply list_elem_of_omap.
    exists ("Host", host). split.
    - unfold range_of in Horder. rewrite Horder.
      apply elem_of_map_to_list. exact Hhost.
    - cbn [fst snd]. rewrite canonical_Host.
      destruct (decide ("Host" = "Host")) as [_|Hne]; [reflexivity|].
      exfalso. apply Hne. reflexivity. }
  assert (Hhdr : forall r1, host ∈ values "Host"
            (req_Header (foldl AddCookie
                           (set_Host host (foldl add_header req0 order)) r1))).
  { intros r1. rewrite attach_values by discriminate. simpl.
    rewrite values_add_headers. apply elem_of_app. right. exact Hin. }
  subst req. destruct (Context (builder s)); simpl;
    rewrite attach_Host; split; try reflexivity; apply Hhdr.
Qed.

(** C6: the cookies of the builder are those the calls appended, in call
    order and with repetitions; dispatch hands the handler a request whose
    Cookie header is one value, the pairs of those cookies in that order
    joined by "; ", after the value the header loop left there if it left
    one; without cookies the header loop's values stay. *)
Theorem cookies_attached_in_order (calls : list Config) order handler s req0 :
  allocated s ->
  Error (builder (exec (chain calls) s)) = None ->
  result (httptest_NewRequest (Method (builder (exec (chain calls) s)))
            (Path (builder (exec (chain calls) s)))
            (Body (builder (exec (chain calls) s))))
    (exec (chain calls) s) = Returned req0 ->
  Cookies (builder (exec (chain calls) s)) =
    Cookies (builder s) ++ omap appended_cookie calls
  /\ exists req,
       served (exec (GoWithHTTPHandler order handler) (exec (chain calls) s))
         = served s ++ [req]
       /\ values "Cookie" (req_Header req) =
            match Cookies (builder (exec (chain calls) s)) with
            | [] => values "Cookie" (req_Header (foldl add_header req0 order))
            | cs =>
                [String.concat "; "
                   (cookie_parts
                      (Header_Get "Cookie"
                         (req_Header (foldl add_header req0 order)))
                    ++ map cookie_pair cs)]
            end.
Proof.
  intros Hs. 
  destruct (chain_returns calls s Hs) as (s' & Hrun & _ & _ & Hv & Hk & _).
  assert (Hexec : exec (chain calls) s = s')
    by (unfold exec; rewrite Hrun; reflexivity).
  rewrite Hexec. intros Herr Hnew. split; [exact Hk|].
  destruct (dispatch_serves order handler s' req0 Herr Hnew)
    as (req & Hserved & _ & _ & Hreq).
  exists req. split; [rewrite Hserved, Hv; reflexivity|].
  assert (Hcookie : forall req2,
    req_Header req2 = req_Header (foldl add_header req0 order) ->
    values "Cookie" (req_Header (foldl AddCookie req2 (Cookies (builder s')))) =
      match Cookies (builder s') with
      | [] => values "Cookie" (req_Header (foldl add_header req0 order))
      | cs =>
          [String.concat "; "
             (cookie_parts
                (Header_Get "Cookie"
                   (req_Header (foldl add_header req0 order)))
              ++ map cookie_pair cs)]
      end).
  { intros req2 Hh. destruct (Cookies (builder s')) as [|c cs] eqn:Hcs.
    - simpl. rewrite Hh. reflexivity.
    - rewrite attach_Cookie by discriminate. rewrite Hh. reflexivity. }
  subst req.
  destruct (Context (builder s')); simpl;
    destruct (entries (builder s') !! "Host"); apply Hcookie; reflexivity.
Qed.

(** C7 (amended): in the builder each header name reads as the last value
    assigned to it.  When no other configured name has the same canonical
    form, the request line brought no header of that form, and the form is
    not Cookie while cookies are attached, the request handed to the
    handler carries exactly that one value under the canonical form of the
    name. *)
Theorem headers_last_write_wins (calls : list Config) order handler s req0
    h v :
  allocated s ->
  last_assigned h (omap assigned calls) = Some v ->
  Error (builder (exec (chain calls) s)) = None ->
  range_of (builder (exec (chain calls) s)) order ->
  result (httptest_NewRequest (Method (builder (exec (chain calls) s)))
            (Path (builder (exec (chain calls) s)))
            (Body (builder (exec (chain calls) s))))
    (exec (chain calls) s) = Returned req0 ->
  alone h (entries (builder (exec (chain calls) s))) ->
  values (textproto.CanonicalMIMEHeaderKey h) (req_Header req0) = [] ->
  (textproto.CanonicalMIMEHeaderKey h = "Cookie" ->
   Cookies (builder (exec (chain calls) s)) = []) ->
  entries (builder (exec (chain calls) s)) !! h = Some v
  /\ exists req,
       served (exec (GoWithHTTPHandler order handler) (exec (chain calls) s))
         = served s ++ [req]
       /\ values (textproto.CanonicalMIMEHeaderKey h) (req_Header req) = [v].
Proof.
  intros Hs Hlast.
  destruct (chain_returns calls s Hs)
    as (s' & Hrun & _ & _ & Hv & _ & _ & Hm).
  assert (Hexec : exec (chain calls) s = s')
    by (unfold exec; rewrite Hrun; reflexivity).
  rewrite Hexec. intros Herr Horder Hnew Halone Hreq0 Hcookie.
  assert (Hlook : entries (builder s') !! h = Some v).
  { rewrite Hm, lookup_assignments, Hlast. reflexivity. }
  split; [exact Hlook|].
  destruct (dispatch_serves order handler s' req0 Herr Hnew)
    as (req & Hserved & _ & _ & Hreq).
  exists req. split; [rewrite Hserved, Hv; reflexivity|].
  assert (Hloop : values (textproto.CanonicalMIMEHeaderKey h)
                    (req_Header (foldl add_header req0 order)) = [v]).
  { rewrite values_add_headers, Hreq0. simpl.
    apply Permutation_singleton_r.
    unfold range_of in Horder. unfold configured_for. rewrite Horder.
    fold (configured_for (textproto.CanonicalMIMEHeaderKey h)
            (map_to_list (entries (builder s')))).
    rewrite (configured_for_alone h v); [reflexivity | | |].
    - apply NoDup_fst_map_to_list.
    - apply elem_of_map_to_list. exact Hlook.
    - intros k w Hkw Hc. apply Halone; [|exact Hc].
      exists w. apply elem_of_map_to_list. exact Hkw. }
  assert (Hattach : forall req2,
    req_Header req2 = req_Header (foldl add_header req0 order) ->
    values (textproto.CanonicalMIMEHeaderKey h)
      (req_Header (foldl AddCookie req2 (Cookies (builder s')))) = [v]).
  { intros req2 Hh.
    destruct (decide (textproto.CanonicalMIMEHeaderKey h = "Cookie"))
      as [Hc|Hc].
    - rewrite (Hcookie Hc). simpl. rewrite Hh. exact Hloop.
    - rewrite attach_values by exact Hc. rewrite Hh. exact Hloop. }
  subst req.
  destruct (Context (builder s')); simpl;
    destruct (entries (builder s') !! "Host"); apply Hattach; reflexivity.
Qed.

End Wire.

Lemma alone_check h (m : gmap string string) :
  alone_in h (map_to_list m) = true -> alone h m.
Proof.
  unfold alone_in, alone. rewrite forallb_forall.
  intros Hall other [w Hw] Hc.
  apply elem_of_map_to_list, list_elem_of_In in Hw.
  specialize (Hall _ Hw). simpl in Hall.
  destruct (decide _) as [_|Hne]; [|contradiction].
  apply bool_decide_eq_true in Hall. exact Hall.
Qed.

Lemma host_header_sets_host_field_witness :
  Error (builder host_configured) = None
  /\ entries (builder host_configured) !! "Host" = Some "api.test"
  /\ range_of (builder host_configured) [("Host", "api.test")]
  /\ exists req,
       served (exec (GoWithHTTPHandler [("Host", "api.test")]
                       Sample.no_content) host_configured) = [] ++ [req]
       /\ req_Host req = "api.test"
       /\ "api.test" ∈ values "Host" (req_Header req).
Proof.
  assert (H1 : Error (builder host_configured) = None) by reflexivity.
  assert (H2 : entries (builder host_configured) !! "Host" = Some "api.test")
    by (vm_compute; reflexivity).
  assert (H3 : range_of (builder host_configured) [("Host", "api.test")])
    by (unfold range_of; vm_compute; reflexivity).
  split; [exact H1|]. split; [exact H2|]. split; [exact H3|].
  apply (host_header_sets_host_field [("Host", "api.test")] Sample.no_content
           host_configured "api.test" Sample.root_request H1 H2 H3).
  vm_compute. reflexivity.
Defined.

(** C2 as stated fails: after [NewRequest().Get("/").WithHost("api.test")]
    the request handed to the handler has the host field api.test and also
    the header line Host: api.test, its only header. *)
Lemma host_is_a_header_line :
  range_of (builder host_configured) [("Host", "api.test")]
  /\ req_Host <$>
       served (exec (GoWithHTTPHandler [("Host", "api.test")]
                       Sample.no_content) host_configured) = ["api.test"]
  /\ (fun req => map_to_list (req_Header req)) <$>
       served (exec (GoWithHTTPHandler [("Host", "api.test")]
                       Sample.no_content) host_configured)
     = [[("Host", ["api.test"])]]
  /\ (fun req => values "Host" (req_Header req)) <$>
       served (exec (GoWithHTTPHandler [("Host", "api.test")]
                       Sample.no_content) host_configured)
     <> [[]].
Proof.
  split; [unfold range_of; vm_compute; reflexivity|].
  split; [vm_compute; reflexivity|].
  split; [vm_compute; reflexivity|].
  vm_compute. discriminate.
Qed.

Lemma cookies_attached_in_order_witness :
  allocated Sample.fresh
  /\ Cookies (builder (exec (chain three_cookies) Sample.fresh)) =
       [mkCookie "a" "1" false; mkCookie "b" "2" false; mkCookie "a" "1" false]
  /\ exists req,
       served (exec (GoWithHTTPHandler [] Sample.no_content)
                 (exec (chain three_cookies) Sample.fresh)) = [req]
       /\ values "Cookie" (req_Header req) = ["a=1; b=2; a=1"].
Proof.
  split; [exact fresh_allocated|].
  assert (H2 : Error (builder (exec (chain three_cookies) Sample.fresh)) = None)
    by reflexivity.
  assert (H3 : result
    (httptest_NewRequest
       (Method (builder (exec (chain three_cookies) Sample.fresh)))
       (Path (builder (exec (chain three_cookies) Sample.fresh)))
       (Body (builder (exec (chain three_cookies) Sample.fresh))))
    (exec (chain three_cookies) Sample.fresh) = Returned Sample.root_request)
    by (vm_compute; reflexivity).
  destruct (cookies_attached_in_order three_cookies [] Sample.no_content
              Sample.fresh Sample.root_request fresh_allocated H2 H3)
    as (Hk & req & Hserved & Hcookie).
  split; [exact Hk|]. exists req. split; [exact Hserved | exact Hcookie].
Defined.

Lemma headers_last_write_wins_witness :
  allocated Sample.fresh
  /\ last_assigned "Accept" (omap assigned accept_twice)
     = Some "application/json"
  /\ range_of (builder (exec (chain accept_twice) Sample.fresh))
       [("X-Id", "7"); ("Accept", "application/json")]
  /\ alone "Accept" (entries (builder (exec (chain accept_twice) Sample.fresh)))
  /\ entries (builder (exec (chain accept_twice) Sample.fresh)) !! "Accept"
     = Some "application/json"
  /\ exists req,
       served (exec (GoWithHTTPHandler
                       [("X-Id", "7"); ("Accept", "application/json")]
                       Sample.no_content)
                 (exec (chain accept_twice) Sample.fresh)) = [] ++ [req]
       /\ values (textproto.CanonicalMIMEHeaderKey "Accept") (req_Header req)
          = ["application/json"].
Proof.
  assert (H2 : last_assigned "Accept" (omap assigned accept_twice)
               = Some "application/json") by (vm_compute; reflexivity).
  assert (H4 : range_of (builder (exec (chain accept_twice) Sample.fresh))
                 [("X-Id", "7"); ("Accept", "application/json")])
    by (unfold range_of; vm_compute; apply perm_swap).
  assert (H6 : alone "Accept"
                 (entries (builder (exec (chain accept_twice) Sample.fresh))))
    by (apply alone_check; vm_compute; reflexivity).
  split; [exact fresh_allocated|]. split; [exact H2|].
  split; [exact H4|]. split; [exact H6|].
  apply (headers_last_write_wins accept_twice
           [("X-Id", "7"); ("Accept", "application/json")] Sample.no_content
           Sample.fresh Sample.root_request "Accept" "application/json"
           fresh_allocated H2).
  - reflexivity.
  - exact H4.
  - vm_compute. reflexivity.
  - exact H6.
  - vm_compute. reflexivity.
  - vm_compute. discriminate.
Defined.

(** C7 as stated fails: with accept and Accept both configured, each once,
    the request handed to the handler carries two values under Accept, in
    either order the range over the map may take. *)
Lemma two_spellings_two_values :
  range_of (builder (exec (chain two_spellings) Sample.fresh))
    [("accept", "text/plain"); ("Accept", "application/json")]
  /\ range_of (builder (exec (chain two_spellings) Sample.fresh))
       [("Accept", "application/json"); ("accept", "text/plain")]
  /\ (fun req => map_to_list (req_Header req)) <$>
       served (exec (GoWithHTTPHandler
                       [("accept", "text/plain"); ("Accept", "application/json")]
                       Sample.no_content)
                 (exec (chain two_spellings) Sample.fresh))
     = [[("Accept", ["text/plain"; "application/json"])]]
  /\ (fun req => map_to_list (req_Header req)) <$>
       served (exec (GoWithHTTPHandler
                       [("Accept", "application/json"); ("accept", "text/plain")]
                       Sample.no_content)
                 (exec (chain two_spellings) Sample.fresh))
     = [[("Accept", ["application/json"; "text/plain"])]].
Proof.
  split; [unfold range_of; vm_compute; reflexivity|].
  split; [unfold range_of; vm_compute; apply perm_swap|].
  split; vm_compute; reflexivity.
Qed.

(** * Decoding the recorded response *)

Section Negotiation.

Context {Target : Type}.

Lemma contains_suffix (prefix sub : string) : contains sub (prefix +:+ sub).
Proof.
  exists prefix, "". rewrite append_nil_r. reflexivity.
Qed.

(** C5: the Content-Type value splits into what precedes the first ";" and
    the rest; the media type is the former with its surrounding white space
    trimmed, and it is the key of the lookup.  Without a decoder under that
    key the result is the error "unhandled content: " followed by the media
    type, with response and target untouched; with one, the decoder is
    called with the full header value, the unread body, the target and the
    strictness flag, and its outcome is returned. *)
Theorem decode_by_media_type
    (knownHandlers : gmap string (@ResponseHandler Target)) c (obj : Target) :
  exists bare params media,
    Header_Get "Content-Type" (rec_HeaderMap (Recorder c)) = bare +:+ params
    /\ Bytes.mem ";" bare = false
    /\ (params = "" \/ exists rest, params = String ";" rest)
    /\ media = strings.TrimSpace bare
    /\ trimmed bare media
    /\ match getHandler knownHandlers media with
       | None =>
           UnmarshalBodyToObject knownHandlers c obj =
             (Some (errorString ("unhandled content: " +:+ media)), c, obj)
           /\ contains media ("unhandled content: " +:+ media)
       | Some handler =>
           UnmarshalBodyToObject knownHandlers c obj =
             let '(err, unread, obj') :=
               handler
                 (Header_Get "Content-Type" (rec_HeaderMap (Recorder c)))
                 (rec_Body (Recorder c)) obj (Strict c) in
             (err,
              mkCompleted
                (mkRecorder (rec_Code (Recorder c))
                   (rec_HeaderMap (Recorder c)) unread) (Strict c),
              obj')
       end.
Proof.
  destruct (Split_first ";"
              (Header_Get "Content-Type" (rec_HeaderMap (Recorder c))))
    as (bare & params & Hfirst & Hsplit & Hmem & Hparams).
  exists bare, params, (strings.TrimSpace bare).
  split; [exact Hsplit|]. split; [exact Hmem|]. split; [exact Hparams|].
  split; [reflexivity|]. split; [apply TrimSpace_trimmed|].
  unfold UnmarshalBodyToObject. rewrite Hfirst.
  destruct (getHandler knownHandlers (strings.TrimSpace bare)) as [handler|].
  - reflexivity.
  - split; [reflexivity | apply contains_suffix].
Qed.

(** C10: with no Content-Type header on the recorded response and no
    decoder registered under the empty media type, the result is the error
    "unhandled content: " for the empty media type; no decoder runs, the
    JSON one included, and response and target stay as they were. *)
Theorem no_content_type_is_unhandled
    (knownHandlers : gmap string (@ResponseHandler Target)) c (obj : Target) :
  Header_Get "Content-Type" (rec_HeaderMap (Recorder c)) = "" ->
  getHandler knownHandlers "" = None ->
  UnmarshalBodyToObject knownHandlers c obj =
    (Some (errorString "unhandled content: "), c, obj).
Proof.
  intros Hctype Hnone. unfold UnmarshalBodyToObject.
  rewrite Hctype. simpl strings.Split. simpl first_part.
  change (strings.TrimSpace "") with "". rewrite Hnone. reflexivity.
Qed.

End Negotiation.

(** The spec's two examples of content negotiation. *)
Example json_with_charset_decodes :
  (UnmarshalBodyToObject (json.seeded SampleJson.parse) SampleJson.recorded
     SampleJson.only_known).1.1 = None.
Proof. vm_compute. reflexivity. Qed.

Example xml_is_unhandled :
  (UnmarshalBodyToObject (json.seeded SampleJson.parse) SampleJson.xml
     SampleJson.only_known).1.1
  = Some (errorString "unhandled content: text/xml").
Proof. vm_compute. reflexivity. Qed.

Lemma no_content_type_is_unhandled_witness :
  Header_Get "Content-Type" (rec_HeaderMap (Recorder SampleJson.untyped)) = ""
  /\ getHandler (json.seeded SampleJson.parse) "" = None
  /\ UnmarshalBodyToObject (json.seeded SampleJson.parse) SampleJson.untyped
       SampleJson.only_known =
     (Some (errorString "unhandled content: "), SampleJson.untyped,
      SampleJson.only_known).
Proof.
  assert (H1 : Header_Get "Content-Type"
                 (rec_HeaderMap (Recorder SampleJson.untyped)) = "")
    by reflexivity.
  assert (H2 : getHandler (json.seeded SampleJson.parse) "" = None)
    by reflexivity.
  split; [exact H1|]. split; [exact H2|].
  exact (no_content_type_is_unhandled (json.seeded SampleJson.parse)
           SampleJson.untyped SampleJson.only_known H1 H2).
Defined.

(** * Strict mode *)

Section Strictness.

Import json.

Variable parse : string -> option JSON.

Lemma decode_member_shape strict t member t' :
  decode_member strict t member = inr t' -> shape t' = shape t.
Proof.
  unfold decode_member.
  destruct (field_kind member.1 t) as [kind|].
  - destruct (fits kind member.2); [|discriminate].
    intros [= <-]. reflexivity.
  - destruct strict; [discriminate|]. intros [= <-]. reflexivity.
Qed.

Lemma field_kind_shape name t t' :
  shape t' = shape t -> field_kind name t' = field_kind name t.
Proof. unfold field_kind. intros ->. reflexivity. Qed.

Lemma known_shape t t' members :
  shape t' = shape t -> known t' members = known t members.
Proof.
  intros Hshape. unfold known.
  induction members as [|member members IH]; [reflexivity|].
  rewrite !filter_cons, IH, (field_kind_shape member.1 t t' Hshape).
  reflexivity.
Qed.

(** In strict mode an object with a member outside the shape fails. *)
Lemma strict_unknown_fails members : forall t member,
  member ∈ members ->
  field_kind member.1 t = None ->
  exists err, decode_members true t members = inl err.
Proof.
  induction members as [|first members IH]; intros t member Hin Hnone.
  - apply elem_of_nil in Hin. contradiction.
  - simpl. destruct (decode_member true t first) as [err|t'] eqn:Hfirst;
      [exists err; reflexivity|].
    apply elem_of_cons in Hin as [->|Hin].
    + unfold decode_member in Hfirst. rewrite Hnone in Hfirst.
      discriminate.
    + apply (IH t' member Hin).
      rewrite (field_kind_shape _ t t' (decode_member_shape _ _ _ _ Hfirst)).
      exact Hnone.
Qed.

(** In lenient mode, members that fit their fields are stored in order and
    the others are passed over. *)
Lemma lenient_decodes_known members : forall t,
  (forall member kind, member ∈ members ->
     field_kind member.1 t = Some kind -> fits kind member.2 = true) ->
  decode_members false t members =
    inr (mkStruct (shape t)
           (foldl (fun m member => <[member.1 := member.2]> m) (slots t)
              (known t members))).
Proof.
  induction members as [|first members IH]; intros t Hfit.
  - destruct t. reflexivity.
  - simpl. unfold decode_member, known. rewrite filter_cons.
    destruct (field_kind first.1 t) as [kind|] eqn:Hkind.
    + rewrite (Hfit first kind (list_elem_of_here _ _) Hkind).
      destruct (decide (is_Some (Some kind))) as [_|Hno];
        [|destruct Hno; eexists; reflexivity].
      rewrite IH.
      * simpl. reflexivity.
      * intros member kind' Hin Hk. apply (Hfit member kind').
        -- apply list_elem_of_further. exact Hin.
        -- exact Hk.
    + destruct (decide (is_Some None)) as [[? Hyes]|_]; [discriminate|].
      apply IH. intros member kind' Hin Hk. apply (Hfit member kind').
      * apply list_elem_of_further. exact Hin.
      * exact Hk.
Qed.

Lemma inspect_Strict knownHandlers c op :
  Strict c = true -> Strict (inspect knownHandlers c op) = true.
Proof.
  intros Hc. destruct op; simpl; try assumption; [reflexivity|].
  unfold UnmarshalBodyToObject.
  destruct (getHandler _ _) as [handler|]; [|exact Hc].
  destruct (handler _ _ _ _) as [[err unread] obj']. exact Hc.
Qed.

Lemma inspections_Strict knownHandlers ops : forall c,
  Strict c = true -> Strict (foldl (inspect knownHandlers) c ops) = true.
Proof.
  induction ops as [|op ops IH]; intros c Hc; [exact Hc|].
  simpl. apply IH, inspect_Strict, Hc.
Qed.

(** C8: DisallowUnknownFields sets the strictness flag and no operation on
    the result clears it.  For a JSON body that is an object with a member
    the target's shape has no field for, decoding through the registered
    JSON decoder fails once the flag is set; with the flag unset, and the
    members the shape knows fitting their fields, it succeeds and stores
    exactly those members, in order. *)
Theorem strict_mode_rejects_unknown_fields
    (knownHandlers : gmap string (@ResponseHandler Struct))
    c obj members unknown ops :
  getHandler knownHandlers
    (strings.TrimSpace
       (first_part
          (strings.Split
             (Header_Get "Content-Type" (rec_HeaderMap (Recorder c))) ";")))
    = Some (jsonHandler parse) ->
  parse (rec_Body (Recorder c)) = Some (JObject members) ->
  unknown ∈ members ->
  field_kind unknown.1 obj = None ->
  Strict (foldl (inspect knownHandlers) (DisallowUnknownFields c) ops) = true
  /\ (exists err,
        (UnmarshalBodyToObject knownHandlers (DisallowUnknownFields c) obj).1.1
        = Some err)
  /\ (Strict c = false ->
      (forall member kind, member ∈ members ->
         field_kind member.1 obj = Some kind -> fits kind member.2 = true) ->
      (UnmarshalBodyToObject knownHandlers c obj).1.1 = None
      /\ (UnmarshalBodyToObject knownHandlers c obj).2 =
           mkStruct (shape obj)
             (foldl (fun m member => <[member.1 := member.2]> m) (slots obj)
                (known obj members))).
Proof.
  intros Hhandler Hparse Hin Hnone.
  split; [apply inspections_Strict; reflexivity|]. split.
  - destruct (strict_unknown_fails members obj unknown Hin Hnone)
      as (err & Herr).
    exists err. unfold UnmarshalBodyToObject. simpl.
    rewrite Hhandler. unfold jsonHandler, Unmarshal.
    rewrite Hparse, Herr. reflexivity.
  - intros Hlenient Hfit. unfold UnmarshalBodyToObject.
    rewrite Hhandler, Hlenient. unfold jsonHandler, Unmarshal.
    rewrite Hparse, (lenient_decodes_known members obj Hfit).
    split; reflexivity.
Qed.

End Strictness.

Lemma strict_mode_rejects_unknown_fields_witness :
  json.field_kind "unknown" SampleJson.only_known = None
  /\ SampleJson.parse (rec_Body (Recorder SampleJson.recorded)) =
       Some (json.JObject
               [("known", json.JNumber 1); ("unknown", json.JNumber 2)])
  /\ (exists err,
        (UnmarshalBodyToObject (json.seeded SampleJson.parse)
           (DisallowUnknownFields SampleJson.recorded)
           SampleJson.only_known).1.1 = Some err)
  /\ (UnmarshalBodyToObject (json.seeded SampleJson.parse)
        SampleJson.recorded SampleJson.only_known).1.1 = None
  /\ (UnmarshalBodyToObject (json.seeded SampleJson.parse)
        SampleJson.recorded SampleJson.only_known).2 =
       json.mkStruct [("known", json.KNumber)]
         (<["known" := json.JNumber 1]> ∅).
Proof.
  assert (H1 : json.field_kind "unknown" SampleJson.only_known = None)
    by reflexivity.
  assert (H2 : SampleJson.parse (rec_Body (Recorder SampleJson.recorded)) =
                 Some (json.JObject
                         [("known", json.JNumber 1);
                          ("unknown", json.JNumber 2)]))
    by (vm_compute; reflexivity).
  split; [exact H1|]. split; [exact H2|].
  destruct (strict_mode_rejects_unknown_fields SampleJson.parse
              (json.seeded SampleJson.parse) SampleJson.recorded
              SampleJson.only_known
              [("known", json.JNumber 1); ("unknown", json.JNumber 2)]
              ("unknown", json.JNumber 2) [])
    as (_ & Hstrict & Hlenient).
  - assert (Hkey : strings.TrimSpace
                     (first_part
                        (strings.Split
                           (Header_Get "Content-Type"
                              (rec_HeaderMap (Recorder SampleJson.recorded)))
                           ";")) = "application/json")
      by (vm_compute; reflexivity).
    rewrite Hkey. apply lookup_singleton_eq.
  - exact H2.
  - apply list_elem_of_further, list_elem_of_here.
  - exact H1.
  - split; [exact Hstrict|]. apply Hlenient; [reflexivity|].
    intros member kind Hin Hkind.
    apply elem_of_cons in Hin as [->|Hin].
    + injection Hkind as <-. reflexivity.
    + apply list_elem_of_singleton in Hin. subst member. discriminate Hkind.
Defined.

(** * Further properties of the builder *)

Section Settings.

Context {Obj : Type} {L : Library Obj}.

Ltac run := unfold mbind, Go_bind, load, store, mret, Go_ret; simpl.

(** What one call does to method, path, body and context. *)
Lemma call_settings (c : @Config Obj) s :
  allocated s ->
  exists s', call c s = (Returned tt, s')
    /\ allocated s'
    /\ (Method (builder s'), Path (builder s')) =
         default (Method (builder s), Path (builder s)) (method_set c)
    /\ Body (builder s') = default (Body (builder s)) (body_set c)
    /\ Context (builder s') = default (Context (builder s)) (context_set c).
Proof.
  intros Hs.
  assert (Hassign : forall h v s0, allocated s0 ->
    exists s', assign_header h v s0 = (Returned tt, s')
      /\ allocated s'
      /\ Method (builder s') = Method (builder s0)
      /\ Path (builder s') = Path (builder s0)
      /\ Body (builder s') = Body (builder s0)
      /\ Context (builder s') = Context (builder s0)).
  { intros h v s0 [m Hm]. unfold assign_header. run. rewrite Hm.
    eexists. split; [reflexivity|]. unfold allocated. simpl. eauto 10. }
  destruct c; simpl;
    unfold WithAcceptJson, WithAccept, WithJsonContentType, WithContentType,
      WithHost, WithJWSAuth, WithHeader.
  all: try match goal with
    | |- context [assign_header ?h ?v ?s0] =>
        destruct (Hassign h v s0 Hs) as (s' & -> & Ha & Hm & Hp & Hb & Hc);
        exists s'; rewrite Hm, Hp, Hb, Hc; auto 10
    end.
  all: try (unfold Get, Post, Put, Patch, Delete, WithMethod, WithBody,
              WithCookieNameValue, WithCookie, WithContext; run;
            eexists; split; [reflexivity|]; simpl; auto 10; fail).
  unfold WithJsonBody.
  destruct (json_Marshal obj) as [b|e]; run;
    unfold WithJsonContentType, WithContentType, WithHeader;
    match goal with
    | |- context [assign_header ?h ?v ?s0] =>
        destruct (Hassign h v s0 Hs) as (s' & -> & Ha & Hm & Hp & Hb & Hc)
    end;
    exists s'; simpl in *; rewrite Hm, Hp, Hb, Hc; auto 10.
Qed.

Lemma last_step {A : Type} (x : option A) (l : list A) (d : A) :
  default d (last (option_list x ++ l)) =
    default (default d x) (last l).
Proof.
  destruct x as [a|]; simpl; [|reflexivity].
  rewrite last_cons. destruct (last l); reflexivity.
Qed.

(** Along a chain each of these settings is the one of the last call that
    set it. *)
Lemma chain_settings (calls : list (@Config Obj)) : forall s,
  allocated s ->
  exists s', chain calls s = (Returned tt, s')
    /\ (Method (builder s'), Path (builder s')) =
         default (Method (builder s), Path (builder s))
           (last (omap method_set calls))
    /\ Body (builder s') =
         default (Body (builder s)) (last (omap body_set calls))
    /\ Context (builder s') =
         default (Context (builder s)) (last (omap context_set calls)).
Proof.
  induction calls as [|c calls IH]; intros s Hs.
  - exists s. simpl. auto.
  - destruct (call_settings c s Hs) as (s1 & Hc & H1 & Hm1 & Hb1 & Hx1).
    destruct (IH s1 H1) as (s2 & Hch & Hm2 & Hb2 & Hx2).
    exists s2. simpl chain. unfold mbind, Go_bind. rewrite Hc, Hch.
    split; [reflexivity|].
    rewrite !omap_step, !last_step, <- Hm1, <- Hb1, <- Hx1. auto.
Qed.

(** X1: after a chain of configuration calls on a builder made by
    NewRequest, method and path are those of the last call that sets them
    (WithMethod or a verb shortcut with its verb constant), or unchanged
    when no call does. *)
Theorem chain_method_path_last_wins (calls : list (@Config Obj)) s :
  allocated s ->
  (Method (builder (exec (chain calls) s)),
   Path (builder (exec (chain calls) s))) =
    default (Method (builder s), Path (builder s))
      (last (omap method_set calls)).
Proof.
  intros Hs. unfold exec.
  destruct (chain_settings calls s Hs) as (s' & -> & Hm & _). exact Hm.
Qed.

(** X2: after a chain the body is the one the last body-setting call left:
    the argument of WithBody (nil clears it), the marshalled bytes of
    WithJsonBody, or nil when that marshalling failed; a failing
    WithJsonBody thus drops a body set earlier. *)
Theorem chain_body_last_wins (calls : list (@Config Obj)) s :
  allocated s ->
  Body (builder (exec (chain calls) s)) =
    default (Body (builder s)) (last (omap body_set calls)).
Proof.
  intros Hs. unfold exec.
  destruct (chain_settings calls s Hs) as (s' & -> & _ & Hb & _). exact Hb.
Qed.

(** X3: after a chain the context is that of the last WithContext call, nil
    included, or unchanged when there is none. *)
Theorem chain_context_last_wins (calls : list (@Config Obj)) s :
  allocated s ->
  Context (builder (exec (chain calls) s)) =
    default (Context (builder s)) (last (omap context_set calls)).
Proof.
  intros Hs. unfold exec.
  destruct (chain_settings calls s Hs) as (s' & -> & _ & _ & Hx). exact Hx.
Qed.

End Settings.

Lemma chain_method_path_last_wins_witness :
  allocated Sample.fresh
  /\ (Method (builder (exec (chain settings_twice) Sample.fresh)),
      Path (builder (exec (chain settings_twice) Sample.fresh)))
     = ("GET", "/").
Proof.
  split; [exact fresh_allocated|].
  exact (chain_method_path_last_wins settings_twice Sample.fresh
           fresh_allocated).
Defined.

Lemma chain_body_last_wins_witness :
  allocated Sample.fresh
  /\ Body (builder (exec (chain settings_twice) Sample.fresh)) = Some "false".
Proof.
  split; [exact fresh_allocated|].
  exact (chain_body_last_wins settings_twice Sample.fresh fresh_allocated).
Defined.

Lemma chain_context_last_wins_witness :
  allocated Sample.fresh
  /\ Context (builder (exec (chain settings_twice) Sample.fresh))
     = Some (context.WithValue 2).
Proof.
  split; [exact fresh_allocated|].
  exact (chain_context_last_wins settings_twice Sample.fresh fresh_allocated).
Defined.

Section NilMap.

Context {Obj : Type} {L : Library Obj}.

Ltac run := unfold mbind, Go_bind, load, store, mret, Go_ret; simpl.

Lemma assign_header_nil h v s :
  Headers (builder s) = None ->
  assign_header h v s = (Panicked "assignment to entry in nil map", s).
Proof.
  intros Hnil. unfold assign_header. run. rewrite Hnil. reflexivity.
Qed.

(** X4: on a builder whose Headers map is nil (one not made by NewRequest)
    a configuration call panics with "assignment to entry in nil map"
    exactly when it assigns a header; the calls that only set method, path,
    body, cookies or context return.  Either way the map stays nil and
    reporter and handler are not touched. *)
Theorem header_call_panics_on_nil_map (c : @Config Obj) s :
  Headers (builder s) = None ->
  result (call c) s =
    match assigned c with
    | Some _ => Panicked "assignment to entry in nil map"
    | None => Returned tt
    end
  /\ Headers (builder (exec (call c) s)) = None
  /\ reported (exec (call c) s) = reported s
  /\ served (exec (call c) s) = served s.
Proof.
  intros Hnil. unfold result, exec.
  destruct c; simpl;
    unfold WithAcceptJson, WithAccept, WithJsonContentType, WithContentType,
      WithHost, WithJWSAuth, WithHeader;
    rewrite ?(assign_header_nil _ _ s Hnil); simpl; auto.
  all: try (unfold Get, Post, Put, Patch, Delete, WithMethod, WithBody,
              WithCookieNameValue, WithCookie, WithContext; run; auto; fail).
  unfold WithJsonBody.
  destruct (json_Marshal obj) as [b|e]; run;
    unfold WithJsonContentType, WithContentType, WithHeader;
    rewrite assign_header_nil by exact Hnil; simpl; auto.
Qed.

(** X5: WithJsonBody on a builder with a nil Headers map panics only at the
    content-type assignment, its last step: the body has already been
    replaced by the marshalled bytes, or by nil together with the deferred
    error when marshalling failed. *)
Theorem WithJsonBody_nil_map_half_done obj s :
  Headers (builder s) = None ->
  result (WithJsonBody obj) s = Panicked "assignment to entry in nil map"
  /\ match json_Marshal obj with
     | inl b =>
         Body (builder (exec (WithJsonBody obj) s)) = Some b
         /\ Error (builder (exec (WithJsonBody obj) s)) = Error (builder s)
     | inr e =>
         Body (builder (exec (WithJsonBody obj) s)) = None
         /\ Error (builder (exec (WithJsonBody obj) s)) =
              Some (Errorf_w "failed to marshal json object: " e)
     end.
Proof.
  intros Hnil. unfold result, exec, WithJsonBody.
  destruct (json_Marshal obj) as [b|e]; run;
    unfold WithJsonContentType, WithContentType, WithHeader;
    rewrite assign_header_nil by exact Hnil; simpl; auto.
Qed.

(** X6: a recorded construction error is never cleared: after any further
    chain of configuration calls the builder still carries an error, and
    dispatch reports once, returns nil and hands nothing to the handler. *)
Theorem deferred_error_is_sticky (calls : list (@Config Obj)) order handler
    s err :
  allocated s ->
  Error (builder s) = Some err ->
  exists err',
    Error (builder (exec (chain calls) s)) = Some err'
    /\ result (GoWithHTTPHandler order handler) (exec (chain calls) s)
       = Returned None
    /\ reported (exec (GoWithHTTPHandler order handler)
                   (exec (chain calls) s)) =
         reported s ++ [mkErrorf "error constructing request: %s" [err']]
    /\ served (exec (GoWithHTTPHandler order handler) (exec (chain calls) s))
       = served s.
Proof.
  intros Hs Herr.
  destruct (chain_returns calls s Hs)
    as (s' & Hrun & _ & Hr & Hv & _ & He & _).
  assert (Hexec : exec (chain calls) s = s')
    by (unfold exec; rewrite Hrun; reflexivity).
  rewrite Hexec.
  assert (Hsome : exists err', Error (builder s') = Some err').
  { rewrite He. destruct (last _); [eauto | rewrite Herr; eauto]. }
  destruct Hsome as (err' & Herr').
  exists err'. split; [exact Herr'|]. unfold result, exec.
  rewrite (dispatch_deferred order handler s' err' Herr'). simpl.
  rewrite Hr, Hv. auto.
Qed.

End NilMap.

Lemma header_call_panics_on_nil_map_witness :
  Headers (builder unallocated) = None
  /\ result (call (CallWithHost (Obj := Sample.Value) "api.test")) unallocated
     = Panicked "assignment to entry in nil map"
  /\ result (call (CallGet (Obj := Sample.Value) "/")) unallocated
     = Returned tt.
Proof.
  assert (H : Headers (builder unallocated) = None) by reflexivity.
  split; [exact H|]. split.
  - exact (proj1 (header_call_panics_on_nil_map
                    (CallWithHost (Obj := Sample.Value) "api.test")
                    unallocated H)).
  - exact (proj1 (header_call_panics_on_nil_map
                    (CallGet (Obj := Sample.Value) "/") unallocated H)).
Defined.

Lemma WithJsonBody_nil_map_half_done_witness :
  Headers (builder unallocated) = None
  /\ result (WithJsonBody Sample.ChanInt) unallocated
     = Panicked "assignment to entry in nil map"
  /\ Error (builder (exec (WithJsonBody Sample.ChanInt) unallocated)) =
       Some (Errorf_w "failed to marshal json object: "
               (errorString "json: unsupported type: chan int")).
Proof.
  assert (H : Headers (builder unallocated) = None) by reflexivity.
  split; [exact H|].
  destruct (WithJsonBody_nil_map_half_done Sample.ChanInt unallocated H)
    as (Hres & _ & Herr).
  split; [exact Hres | exact Herr].
Defined.

Lemma deferred_error_is_sticky_witness :
  allocated failed_marshal
  /\ exists err',
       Error (builder (exec (chain [CallWithBody (Some "ok");
                                    CallWithJsonBody (Sample.Bool true)])
                         failed_marshal)) = Some err'
       /\ result (GoWithHTTPHandler [] Sample.no_content)
            (exec (chain [CallWithBody (Some "ok");
                          CallWithJsonBody (Sample.Bool true)])
               failed_marshal) = Returned None.
Proof.
  assert (Ha : allocated failed_marshal) by (eexists; reflexivity).
  split; [exact Ha|].
  destruct (deferred_error_is_sticky
              [CallWithBody (Some "ok"); CallWithJsonBody (Sample.Bool true)]
              [] Sample.no_content failed_marshal _ Ha eq_refl)
    as (err' & He & Hres & _).
  exists err'. split; [exact He | exact Hres].
Defined.

(** * Further properties of dispatch *)

Section Served.

Context {Obj : Type} {L : Library Obj}.

(** The header loop and the cookie loop write the header map only. *)
Lemma add_headers_frame order : forall req,
  foldl add_header req order =
    set_Header (req_Header (foldl add_header req order)) req.
Proof.
  induction order as [|hv order IH]; intros req; simpl.
  - destruct req. reflexivity.
  - rewrite IH. destruct req. reflexivity.
Qed.

Lemma attach_frame cs : forall req,
  foldl AddCookie req cs =
    set_Header (req_Header (foldl AddCookie req cs)) req.
Proof.
  induction cs as [|c cs IH]; intros req; simpl.
  - destruct req. reflexivity.
  - rewrite IH. unfold AddCookie. destruct (decide _); destruct req;
      reflexivity.
Qed.

(** What the request handed to the handler keeps of the one NewRequest
    returned: everything but header map, host and context. *)
Lemma served_fields (r : RequestBuilder) order req0 req :
  req =
    (let req1 := foldl add_header req0 order in
     let req2 := match entries r !! "Host" with
                 | Some host => set_Host host req1
                 | None => req1
                 end in
     let req3 := foldl AddCookie req2 (Cookies r) in
     match Context r with
     | Some ctx => http.WithContext ctx req3
     | None => req3
     end) ->
  req_Method req = req_Method req0
  /\ req_RequestURI req = req_RequestURI req0
  /\ req_Body req = req_Body req0
  /\ req_ContentLength req = req_ContentLength req0
  /\ req_Host req = default (req_Host req0) (entries r !! "Host")
  /\ req_ctx req = default (req_ctx req0) (Context r).
Proof.
  intros ->. simpl.
  rewrite (attach_frame (Cookies r)).
  rewrite (add_headers_frame order req0).
  destruct (Context r), (entries r !! "Host"); simpl; auto 10.
Qed.

(** [httptest.NewRequest] returns only requests with the background
    context, a host, and the body it was given. *)
Lemma NewRequest_returns method target body s req0 :
  result (httptest_NewRequest method target body) s = Returned req0 ->
  req_ctx req0 = context.Background
  /\ req_Host req0 <> ""
  /\ (forall b, body = Some b ->
        req_Body req0 = b
        /\ req_ContentLength req0 = Z.of_nat (String.length b)).
Proof.
  unfold result, httptest_NewRequest.
  destruct (http_ReadRequest _) as [parsed|err]; [|discriminate].
  simpl. intros [= <-].
  destruct body as [b0|]; destruct (String.prefix _ _);
    (destruct (decide _) as [He|Hne]); simpl in *;
    (split; [reflexivity|]);
    (split; [first [discriminate | exact Hne]|]);
    intros b Hb; first [discriminate Hb | injection Hb as <-; auto].
Qed.

(** X7: with no deferred error and a request line NewRequest accepts,
    dispatch does not touch the reporter and calls the handler exactly
    once, on a fresh recorder (status 200, no headers, empty body).  When
    the handler returns, the result wraps the recorder as the handler left
    it, with strict mode off, and Code is the recorded status; when it
    panics, the panic is the outcome of the dispatch. *)
Theorem dispatch_invokes_handler_once order handler s req0 :
  Error (builder s) = None ->
  result (httptest_NewRequest (Method (builder s)) (Path (builder s))
            (Body (builder s))) s = Returned req0 ->
  exists req,
    served (exec (GoWithHTTPHandler order handler) s) = served s ++ [req]
    /\ reported (exec (GoWithHTTPHandler order handler) s) = reported s
    /\ match handler (mkRecorder 200 ∅ "") req with
       | Returned rec =>
           exists c,
             result (GoWithHTTPHandler order handler) s = Returned (Some c)
             /\ Recorder c = rec /\ Strict c = false
             /\ Code c = rec_Code rec
       | Panicked msg =>
           result (GoWithHTTPHandler order handler) s = Panicked msg
       end.
Proof.
  intros Herr Hnew.
  destruct (dispatch_serves order handler s req0 Herr Hnew)
    as (req & Hserved & Hreported & Hres & _).
  exists req. split; [exact Hserved|]. split; [exact Hreported|].
  change (mkRecorder 200 ∅ "") with NewRecorder.
  rewrite Hres. destruct (handler NewRecorder req) as [rec|msg];
    [|reflexivity].
  eexists. split; [reflexivity|]. auto.
Qed.

(** X8: a method or path that NewRequest refuses makes dispatch panic with
    NewRequest's message; the failure is not turned into a reporter call,
    and the handler is not invoked. *)
Theorem dispatch_refused_request_line_panics order handler s msg :
  Error (builder s) = None ->
  result (httptest_NewRequest (Method (builder s)) (Path (builder s))
            (Body (builder s))) s = Panicked msg ->
  result (GoWithHTTPHandler order handler) s = Panicked msg
  /\ reported (exec (GoWithHTTPHandler order handler) s) = reported s
  /\ served (exec (GoWithHTTPHandler order handler) s) = served s.
Proof.
  intros Herr Hnew.
  pose proof (NewRequest_store (Method (builder s)) (Path (builder s))
                (Body (builder s)) s) as Hst.
  unfold result, exec, GoWithHTTPHandler, mbind, Go_bind, load in *.
  simpl. rewrite Herr.
  destruct (httptest_NewRequest _ _ _ s) as [out s1]. simpl in *.
  subst. auto.
Qed.

(** X9: a non-nil body of the builder, the empty one included, reaches the
    handler byte for byte, with the content length set to its length; the
    header loop, the host override, the cookies and the context leave it
    alone. *)
Theorem dispatch_carries_body order handler s req0 b :
  Error (builder s) = None ->
  Body (builder s) = Some b ->
  result (httptest_NewRequest (Method (builder s)) (Path (builder s))
            (Body (builder s))) s = Returned req0 ->
  exists req,
    served (exec (GoWithHTTPHandler order handler) s) = served s ++ [req]
    /\ req_Body req = b
    /\ req_ContentLength req = Z.of_nat (String.length b).
Proof.
  intros Herr Hbody Hnew.
  destruct (dispatch_serves order handler s req0 Herr Hnew)
    as (req & Hserved & _ & _ & Hreq).
  destruct (served_fields _ _ _ _ Hreq) as (_ & _ & Hb & Hl & _).
  destruct (NewRequest_returns _ _ _ _ _ Hnew) as (_ & _ & Hgiven).
  destruct (Hgiven b Hbody) as [Hb0 Hl0].
  exists req. rewrite Hb, Hl. auto.
Qed.

(** X10: the request handed to the handler carries the context set with
    WithContext, and the background context when none was set. *)
Theorem dispatch_binds_context order handler s req0 :
  Error (builder s) = None ->
  result (httptest_NewRequest (Method (builder s)) (Path (builder s))
            (Body (builder s))) s = Returned req0 ->
  exists req,
    served (exec (GoWithHTTPHandler order handler) s) = served s ++ [req]
    /\ req_ctx req = default context.Background (Context (builder s)).
Proof.
  intros Herr Hnew.
  destruct (dispatch_serves order handler s req0 Herr Hnew)
    as (req & Hserved & _ & _ & Hreq).
  destruct (served_fields _ _ _ _ Hreq) as (_ & _ & _ & _ & _ & Hc).
  destruct (NewRequest_returns _ _ _ _ _ Hnew) as (Hbg & _).
  exists req. rewrite Hc, Hbg. auto.
Qed.

(** X11: a builder whose method was never set dispatches as a GET: the
    outcome, the reporter calls and the requests served are those of the
    same builder with method "GET". *)
Theorem dispatch_empty_method_is_GET order handler s :
  Method (builder s) = "" ->
  result (GoWithHTTPHandler order handler) s =
    result (GoWithHTTPHandler order handler) (with_method "GET" s)
  /\ reported (exec (GoWithHTTPHandler order handler) s) =
       reported (exec (GoWithHTTPHandler order handler) (with_method "GET" s))
  /\ served (exec (GoWithHTTPHandler order handler) s) =
       served (exec (GoWithHTTPHandler order handler) (with_method "GET" s)).
Proof.
  intros Hm.
  unfold result, exec, GoWithHTTPHandler, mbind, Go_bind, load, with_method.
  simpl. rewrite Hm.
  destruct (Error (builder s)); [simpl; auto|].
  unfold httptest_NewRequest, entries. simpl.
  destruct (http_ReadRequest _) as [parsed|err]; simpl; [|auto].
  unfold ServeHTTP.
  match goal with
  | |- context [handler ?a ?b] => destruct (handler a b)
  end; simpl; auto.
Qed.

(** X12: the host override reads the exact key "Host" of the builder's
    map.  Without that key, other spellings such as "host" included, the
    host field of the request is the one NewRequest gave it, which is never
    empty. *)
Theorem dispatch_host_needs_exact_key order handler s req0 :
  Error (builder s) = None ->
  entries (builder s) !! "Host" = None ->
  result (httptest_NewRequest (Method (builder s)) (Path (builder s))
            (Body (builder s))) s = Returned req0 ->
  exists req,
    served (exec (GoWithHTTPHandler order handler) s) = served s ++ [req]
    /\ req_Host req = req_Host req0
    /\ req_Host req <> "".
Proof.
  intros Herr Hhost Hnew.
  destruct (dispatch_serves order handler s req0 Herr Hnew)
    as (req & Hserved & _ & _ & Hreq).
  destruct (served_fields _ _ _ _ Hreq) as (_ & _ & _ & _ & Hh & _).
  destruct (NewRequest_returns _ _ _ _ _ Hnew) as (_ & Hne & _).
  rewrite Hhost in Hh. simpl in Hh.
  exists req. rewrite Hh. auto.
Qed.

End Served.

Section Headers.

Context {Obj : Type} {L : Library Obj}.

(** The header map of the request handed to the handler, key by key. *)
Lemma served_values (r : RequestBuilder) order req0 req k :
  req =
    (let req1 := foldl add_header req0 order in
     let req2 := match entries r !! "Host" with
                 | Some host => set_Host host req1
                 | None => req1
                 end in
     let req3 := foldl AddCookie req2 (Cookies r) in
     match Context r with
     | Some ctx => http.WithContext ctx req3
     | None => req3
     end) ->
  (k = "Cookie" -> Cookies r = []) ->
  values k (req_Header req) =
    values k (req_Header req0) ++ configured_for k order.
Proof.
  intros -> Hcookie.
  assert (Hattach : forall req2,
    req_Header req2 = req_Header (foldl add_header req0 order) ->
    values k (req_Header (foldl AddCookie req2 (Cookies r))) =
      values k (req_Header req0) ++ configured_for k order).
  { intros req2 Hh. destruct (decide (k = "Cookie")) as [Hk|Hk].
    - rewrite (Hcookie Hk). simpl. rewrite Hh. apply values_add_headers.
    - rewrite attach_values by exact Hk. rewrite Hh.
      apply values_add_headers. }
  simpl. destruct (Context r); simpl;
    destruct (entries r !! "Host"); apply Hattach; reflexivity.
Qed.

(** X13: under every key other than Cookie (and under Cookie too when no
    cookie is attached) the request handed to the handler holds the values
    the request line brought, followed by the values of the configured
    names with that canonical form, in the order of the map iteration and
    nothing else: dispatch adds no header of its own. *)
Theorem dispatch_header_values order handler s req0 k :
  Error (builder s) = None ->
  range_of (builder s) order ->
  result (httptest_NewRequest (Method (builder s)) (Path (builder s))
            (Body (builder s))) s = Returned req0 ->
  (k = "Cookie" -> Cookies (builder s) = []) ->
  exists req,
    served (exec (GoWithHTTPHandler order handler) s) = served s ++ [req]
    /\ values k (req_Header req) =
         values k (req_Header req0) ++ configured_for k order
    /\ configured_for k order ≡ₚ
         configured_for k (map_to_list (entries (builder s))).
Proof.
  intros Herr Horder Hnew Hcookie.
  destruct (dispatch_serves order handler s req0 Herr Hnew)
    as (req & Hserved & _ & _ & Hreq).
  exists req. split; [exact Hserved|]. split.
  - apply (served_values _ _ _ _ _ Hreq Hcookie).
  - unfold range_of in Horder. unfold configured_for. rewrite Horder.
    reflexivity.
Qed.

(** X14: a header configured under a name that shares its canonical form
    with no other configured name can be read back by the handler under any
    spelling of that name: Get returns the configured value. *)
Theorem dispatch_header_get_any_spelling order handler s req0 h h' v :
  Error (builder s) = None ->
  range_of (builder s) order ->
  result (httptest_NewRequest (Method (builder s)) (Path (builder s))
            (Body (builder s))) s = Returned req0 ->
  entries (builder s) !! h = Some v ->
  alone h (entries (builder s)) ->
  values (textproto.CanonicalMIMEHeaderKey h) (req_Header req0) = [] ->
  (textproto.CanonicalMIMEHeaderKey h = "Cookie" ->
   Cookies (builder s) = []) ->
  textproto.CanonicalMIMEHeaderKey h' = textproto.CanonicalMIMEHeaderKey h ->
  exists req,
    served (exec (GoWithHTTPHandler order handler) s) = served s ++ [req]
    /\ Header_Get h' (req_Header req) = v.
Proof.
  intros Herr Horder Hnew Hlook Halone Hreq0 Hcookie Hsame.
  destruct (dispatch_serves order handler s req0 Herr Hnew)
    as (req & Hserved & _ & _ & Hreq).
  exists req. split; [exact Hserved|].
  rewrite Header_Get_values, Hsame.
  rewrite (served_values _ _ _ _ _ Hreq Hcookie), Hreq0. simpl.
  assert (Hone : configured_for (textproto.CanonicalMIMEHeaderKey h) order
                 = [v]).
  { apply Permutation_singleton_r.
    unfold range_of in Horder. unfold configured_for. rewrite Horder.
    fold (configured_for (textproto.CanonicalMIMEHeaderKey h)
            (map_to_list (entries (builder s)))).
    rewrite (configured_for_alone h v); [reflexivity | | |].
    - apply NoDup_fst_map_to_list.
    - apply elem_of_map_to_list. exact Hlook.
    - intros k w Hkw Hc. apply Halone; [|exact Hc].
      exists w. apply elem_of_map_to_list. exact Hkw. }
  rewrite Hone. reflexivity.
Qed.

Lemma last_assigned_absent h (sets : list (string * string)) :
  h ∉ sets.*1 -> last_assigned h sets = None.
Proof.
  unfold last_assigned. induction sets as [|[k w] sets IH]; intros Hin;
    [reflexivity|].
  simpl in Hin. apply not_elem_of_cons in Hin as [Hne Hin].
  rewrite filter_cons. simpl.
  destruct (decide (k = h)) as [Heq|_]; [congruence|].
  apply IH, Hin.
Qed.

(** X15: a chain of configuration calls leaves every header name it does
    not assign as it was, present with its value or absent: no call removes
    or rewrites another header. *)
Theorem chain_keeps_unassigned_headers (calls : list (@Config Obj)) s h :
  allocated s ->
  h ∉ (omap assigned calls).*1 ->
  entries (builder (exec (chain calls) s)) !! h = entries (builder s) !! h.
Proof.
  intros Hs Hin. unfold exec.
  destruct (chain_returns calls s Hs)
    as (s' & -> & _ & _ & _ & _ & _ & Hm).
  simpl. rewrite Hm, lookup_assignments, (last_assigned_absent h _ Hin).
  reflexivity.
Qed.

End Headers.

Section Metadata.

Context {Target : Type}.

(** X16: UnmarshalBodyToObject never changes the strictness flag, the
    status code or the headers of the result; only the body buffer is the
    decoder's to read.  When no decoder is found nothing changes at all. *)
Theorem decode_keeps_response_metadata
    (knownHandlers : gmap string (@ResponseHandler Target)) c (obj : Target) :
  Strict (UnmarshalBodyToObject knownHandlers c obj).1.2 = Strict c
  /\ Code (UnmarshalBodyToObject knownHandlers c obj).1.2 = Code c
  /\ rec_HeaderMap (Recorder (UnmarshalBodyToObject knownHandlers c obj).1.2)
     = rec_HeaderMap (Recorder c)
  /\ (getHandler knownHandlers
        (strings.TrimSpace
           (first_part
              (strings.Split
                 (Header_Get "Content-Type" (rec_HeaderMap (Recorder c)))
                 ";"))) = None ->
      (UnmarshalBodyToObject knownHandlers c obj).1.2 = c
      /\ (UnmarshalBodyToObject knownHandlers c obj).2 = obj).
Proof.
  unfold UnmarshalBodyToObject.
  destruct (getHandler _ _) as [handler|].
  - destruct (handler _ _ _ _) as [[err unread] obj']. simpl.
    split; [reflexivity|]. split; [reflexivity|]. split; [reflexivity|].
    discriminate.
  - simpl. auto.
Qed.

End Metadata.

(** * Trimming is exact *)

Lemma cut_space_None_intro runes s :
  (forall p rest, p ∈ runes -> s <> p +:+ rest) ->
  strings.cut_space runes s = None.
Proof.
  intros Hno. destruct (strings.cut_space runes s) as [rest|] eqn:Hcut;
    [|reflexivity].
  destruct (cut_space_Some _ _ _ Hcut) as (p & Hp & Hs).
  destruct (Hno p rest Hp Hs).
Qed.

(** Two prefixes of one string: one is a prefix of the other. *)
Lemma prefixes_comparable (a : string) : forall b x y,
  a +:+ x = b +:+ y ->
  (exists c, b = a +:+ c /\ x = c +:+ y)
  \/ (exists c, a = b +:+ c /\ y = c +:+ x).
Proof.
  induction a as [|ca a IH]; intros b x y Heq.
  - left. exists b. split; [reflexivity | exact Heq].
  - destruct b as [|cb b].
    + right. exists (String ca a). split; [reflexivity|].
      symmetry. exact Heq.
    + change (String ca (a +:+ x) = String cb (b +:+ y)) in Heq.
      injection Heq as -> Heq.
      destruct (IH b x y Heq) as [(c & -> & ->)|(c & -> & ->)].
      * left. exists c. auto.
      * right. exists c. auto.
Qed.

Lemma append_inv_head (a x y : string) : a +:+ x = a +:+ y -> x = y.
Proof.
  induction a as [|c a IH]; intros Heq; [exact Heq|].
  change (String c (a +:+ x) = String c (a +:+ y)) in Heq.
  injection Heq as Heq. apply IH, Heq.
Qed.

Lemma prefix_free_spec runes p q c :
  prefix_free runes = true ->
  p ∈ runes -> q ∈ runes -> q = p +:+ c -> c = "".
Proof.
  unfold prefix_free. rewrite forallb_forall. intros Hall Hp Hq Heq.
  apply list_elem_of_In in Hp, Hq.
  specialize (Hall p Hp). rewrite forallb_forall in Hall.
  specialize (Hall q Hq).
  apply cut_prefix_Some in Heq. rewrite Heq in Hall.
  destruct c; [reflexivity | discriminate].
Qed.

(** With fuel for every byte, a run of runes in front of a string that no
    rune starts is cut off exactly. *)
Lemma trim_left_exact runes :
  (forall p, p ∈ runes -> p <> "") ->
  prefix_free runes = true ->
  forall l, made_of runes l ->
  forall u fuel,
    strings.cut_space runes u = None ->
    (String.length (l +:+ u) <= fuel)%nat ->
    strings.trim_left runes fuel (l +:+ u) = u.
Proof.
  intros Hne Hfree l Hl. induction Hl as [|p l' Hp Hl' IH];
    intros u fuel Hu Hlen.
  - change ("" +:+ u) with u. destruct fuel; simpl; [reflexivity|].
    rewrite Hu. reflexivity.
  - rewrite append_assoc in *.
    destruct fuel as [|fuel].
    { specialize (Hne p Hp). destruct p; [congruence|].
      simpl in Hlen. lia. }
    simpl. destruct (strings.cut_space runes (p +:+ l' +:+ u))
      as [rest|] eqn:Hcut.
    + destruct (cut_space_Some _ _ _ Hcut) as (q & Hq & Hs).
      assert (Hqp : q = p).
      { destruct (prefixes_comparable _ _ _ _ Hs)
          as [(c & Hc & _)|(c & Hc & _)].
        - rewrite (prefix_free_spec runes p q c Hfree Hp Hq Hc) in Hc.
          rewrite append_nil_r in Hc. exact Hc.
        - rewrite (prefix_free_spec runes q p c Hfree Hq Hp Hc) in Hc.
          rewrite append_nil_r in Hc. symmetry. exact Hc. }
      subst q. apply append_inv_head in Hs. subst rest.
      apply IH; [exact Hu|].
      rewrite length_append in Hlen.
      specialize (Hne p Hp). destruct p; [congruence|].
      simpl in Hlen. lia.
    + exfalso. apply (cut_space_None _ _ Hcut p (l' +:+ u) Hp). reflexivity.
Qed.

Lemma mem_append c (a b : string) :
  Bytes.mem c (a +:+ b) = Bytes.mem c a || Bytes.mem c b.
Proof.
  induction a as [|x a IH]; [reflexivity|].
  change (Bytes.eqb c x || Bytes.mem c (a +:+ b) =
          Bytes.eqb c x || Bytes.mem c a || Bytes.mem c b).
  rewrite IH, orb_assoc. reflexivity.
Qed.

Lemma mem_head x (s : string) : Bytes.mem x (String x s) = true.
Proof.
  simpl. unfold Bytes.eqb. rewrite Ascii.eqb_refl. reflexivity.
Qed.

Lemma self_synchronizing_spec runes a inner x q' :
  self_synchronizing runes = true ->
  String a inner ∈ runes -> String x q' ∈ runes ->
  Bytes.mem x inner = false.
Proof.
  unfold self_synchronizing. rewrite forallb_forall. intros Hall Hp Hq.
  apply list_elem_of_In in Hp, Hq.
  specialize (Hall _ Hp). rewrite forallb_forall in Hall.
  specialize (Hall _ Hq). simpl in Hall.
  apply negb_true_iff in Hall. exact Hall.
Qed.

(** A string that starts with no rune does not start with one when a run
    of runes follows it, unless it is empty. *)
Lemma no_rune_across runes t r :
  (forall p, p ∈ runes -> p <> "") ->
  self_synchronizing runes = true ->
  t <> "" ->
  (forall p rest, p ∈ runes -> t <> p +:+ rest) ->
  made_of runes r ->
  strings.cut_space runes (t +:+ r) = None.
Proof.
  intros Hne Hsync Ht Hstart Hr.
  apply cut_space_None_intro. intros p rest Hp Heq.
  destruct (prefixes_comparable _ _ _ _ Heq)
    as [(c & Hc & Hr')|(c & Hc & Hrest)].
  - destruct Hr as [|q r' Hq Hr''].
    + destruct c; [|discriminate Hr'].
      rewrite append_nil_r in Hc. subst p.
      apply (Hstart t "" Hp). rewrite append_nil_r. reflexivity.
    + destruct c as [|x c].
      { rewrite append_nil_r in Hc. subst p.
        apply (Hstart t "" Hp). rewrite append_nil_r. reflexivity. }
      pose proof (Hne q Hq) as Hqne. destruct q as [|y q]; [congruence|].
      change (String y (q +:+ r') = String x (c +:+ rest)) in Hr'.
      injection Hr' as -> _.
      destruct t as [|a t]; [congruence|].
      subst p. change (String a (t +:+ String x c) ∈ runes) in Hp.
      pose proof (self_synchronizing_spec runes a _ x q Hsync Hp Hq) as Hmem.
      rewrite mem_append, mem_head, orb_true_r in Hmem. discriminate.
  - apply (Hstart p c Hp). exact Hc.
Qed.

Lemma made_of_rev_map runes r :
  made_of runes r -> made_of (map String.rev runes) (String.rev r).
Proof.
  induction 1 as [|p s Hp Hs IH]; [constructor|].
  rewrite rev_append. apply made_of_append; [exact IH|].
  rewrite <- (append_nil_r (String.rev p)).
  constructor; [|constructor].
  apply (list_elem_of_fmap_2 String.rev). exact Hp.
Qed.

Lemma space_runes_prefix_free : prefix_free strings.space_runes = true.
Proof. vm_compute. reflexivity. Qed.

Lemma space_runes_suffix_free :
  prefix_free (map String.rev strings.space_runes) = true.
Proof. vm_compute. reflexivity. Qed.

Lemma space_runes_self_synchronizing :
  self_synchronizing strings.space_runes = true.
Proof. vm_compute. reflexivity. Qed.

Lemma TrimSpace_nil : strings.TrimSpace "" = "".
Proof. reflexivity. Qed.

(** A text that neither starts nor ends with a space rune comes back
    exactly from between two runs of white space. *)
Lemma TrimSpace_exact l t r :
  made_of strings.space_runes l ->
  made_of strings.space_runes r ->
  (forall p rest, p ∈ strings.space_runes -> t <> p +:+ rest) ->
  (forall p front, p ∈ strings.space_runes -> t <> front +:+ p) ->
  strings.TrimSpace (l +:+ t +:+ r) = t.
Proof.
  intros Hl Hr Hstart Hend.
  assert (Hne : forall p, p ∈ map String.rev strings.space_runes -> p <> "").
  { intros p Hp. apply list_elem_of_fmap in Hp as (q & -> & Hq).
    apply rev_nonempty, space_runes_nonempty, Hq. }
  unfold strings.TrimSpace.
  destruct (decide (t = "")) as [->|Ht].
  - change ("" +:+ r) with r.
    assert (Hleft : strings.TrimLeftSpace (l +:+ r) = "").
    { unfold strings.TrimLeftSpace.
      rewrite <- (append_nil_r (l +:+ r)) at 2.
      apply (trim_left_exact _ space_runes_nonempty space_runes_prefix_free).
      - apply made_of_append; assumption.
      - reflexivity.
      - rewrite append_nil_r. apply le_n. }
    rewrite Hleft. reflexivity.
  - assert (Hleft : strings.TrimLeftSpace (l +:+ t +:+ r) = t +:+ r).
    { unfold strings.TrimLeftSpace.
      apply (trim_left_exact _ space_runes_nonempty space_runes_prefix_free);
        [exact Hl | | apply le_n].
      apply (no_rune_across _ _ _ space_runes_nonempty
               space_runes_self_synchronizing Ht Hstart Hr). }
    rewrite Hleft. unfold strings.TrimRightSpace.
    rewrite rev_append.
    rewrite (trim_left_exact _ Hne space_runes_suffix_free).
    + apply rev_involutive.
    + apply made_of_rev_map. exact Hr.
    + apply cut_space_None_intro. intros p rest Hp Heq.
      apply list_elem_of_fmap in Hp as (q & -> & Hq).
      apply (Hend q (String.rev rest) Hq).
      rewrite <- (rev_involutive t), Heq, rev_append, rev_involutive.
      reflexivity.
    + rewrite <- rev_append, length_rev. apply le_n.
Qed.

(** What precedes the first separator is the first piece. *)
Lemma Split_first_exact sep bare params :
  Bytes.mem sep bare = false ->
  (params = "" \/ exists rest, params = String sep rest) ->
  first_part (strings.Split (bare +:+ params) sep) = bare.
Proof.
  intros Hmem Hparams. induction bare as [|c bare IH].
  - change ("" +:+ params) with params.
    destruct Hparams as [->|(rest & ->)]; [reflexivity|].
    simpl. unfold Bytes.eqb. rewrite Ascii.eqb_refl. reflexivity.
  - change (String c bare +:+ params) with (String c (bare +:+ params)).
    simpl in *. apply orb_false_elim in Hmem as [Hc Hmem].
    unfold Bytes.eqb in *. rewrite Ascii.eqb_sym, Hc.
    specialize (IH Hmem).
    destruct (strings.Split (bare +:+ params) sep) as [|piece pieces];
      simpl in *; subst; reflexivity.
Qed.

Lemma made_of_no_byte runes c l :
  (forall p, p ∈ runes -> Bytes.mem c p = false) ->
  made_of runes l -> Bytes.mem c l = false.
Proof.
  intros Hno. induction 1 as [|p s Hp Hs IH]; [reflexivity|].
  rewrite mem_append, (Hno p Hp), IH. reflexivity.
Qed.

Lemma space_runes_no_semicolon p :
  p ∈ strings.space_runes -> Bytes.mem ";" p = false.
Proof.
  unfold strings.space_runes. simpl.
  rewrite !elem_of_cons, elem_of_nil.
  intros H. repeat (destruct H as [->|H]; [reflexivity|]). destruct H.
Qed.

Section Selection.

Context {Target : Type}.

(** X17: the decoder is chosen by the media type alone.  When the
    Content-Type value is a media type without ";" that neither starts nor
    ends with white space, put between two runs of white space and
    followed by nothing or by ";" and anything, the lookup key is that
    media type: parameters and surrounding white space never change which
    decoder runs, while the decoder still receives the full value. *)
Theorem decode_selects_by_media_type
    (knownHandlers : gmap string (@ResponseHandler Target)) c (obj : Target)
    l media r params :
  Header_Get "Content-Type" (rec_HeaderMap (Recorder c)) =
    (l +:+ media +:+ r) +:+ params ->
  made_of strings.space_runes l ->
  made_of strings.space_runes r ->
  Bytes.mem ";" media = false ->
  (forall p rest, p ∈ strings.space_runes -> media <> p +:+ rest) ->
  (forall p front, p ∈ strings.space_runes -> media <> front +:+ p) ->
  (params = "" \/ exists rest, params = String ";" rest) ->
  UnmarshalBodyToObject knownHandlers c obj =
    match getHandler knownHandlers media with
    | None => (Some (errorString ("unhandled content: " +:+ media)), c, obj)
    | Some handler =>
        let '(err, unread, obj') :=
          handler ((l +:+ media +:+ r) +:+ params) (rec_Body (Recorder c))
            obj (Strict c) in
        (err,
         mkCompleted
           (mkRecorder (rec_Code (Recorder c)) (rec_HeaderMap (Recorder c))
              unread) (Strict c),
         obj')
    end.
Proof.
  intros Hctype Hl Hr Hmem Hstart Hend Hparams.
  unfold UnmarshalBodyToObject. rewrite Hctype.
  rewrite Split_first_exact; [| |exact Hparams].
  - rewrite (TrimSpace_exact l media r Hl Hr Hstart Hend). reflexivity.
  - rewrite !mem_append, Hmem.
    rewrite (made_of_no_byte _ _ l space_runes_no_semicolon Hl).
    rewrite (made_of_no_byte _ _ r space_runes_no_semicolon Hr).
    reflexivity.
Qed.

End Selection.

(** * Examples of the further properties *)

Lemma lower_host_returns :
  result (httptest_NewRequest (Method (builder lower_host))
            (Path (builder lower_host)) (Body (builder lower_host)))
    lower_host = Returned Sample.root_request.
Proof. vm_compute. reflexivity. Qed.

Lemma dispatch_invokes_handler_once_witness :
  Error (builder host_configured) = None
  /\ exists req,
       served (exec (GoWithHTTPHandler [("Host", "api.test")]
                       Sample.no_content) host_configured) = [] ++ [req]
       /\ reported (exec (GoWithHTTPHandler [("Host", "api.test")]
                            Sample.no_content) host_configured) = []
       /\ exists c,
            result (GoWithHTTPHandler [("Host", "api.test")]
                      Sample.no_content) host_configured = Returned (Some c)
            /\ Strict c = false /\ Code c = 204.
Proof.
  assert (H1 : Error (builder host_configured) = None) by reflexivity.
  split; [exact H1|].
  destruct (dispatch_invokes_handler_once [("Host", "api.test")]
              Sample.no_content host_configured Sample.root_request H1)
    as (req & Hserved & Hreported & Hhandler).
  - vm_compute. reflexivity.
  - exists req. split; [exact Hserved|]. split; [exact Hreported|].
    unfold Sample.no_content in Hhandler at 1.
    destruct Hhandler as (c & Hres & _ & Hstrict & Hcode).
    exists c. split; [exact Hres|]. split; [exact Hstrict | exact Hcode].
Defined.

Lemma dispatch_refused_request_line_panics_witness :
  Error (builder spaced_path) = None
  /\ (exists msg,
        result (GoWithHTTPHandler [] Sample.no_content) spaced_path
        = Panicked msg)
  /\ reported (exec (GoWithHTTPHandler [] Sample.no_content) spaced_path) = []
  /\ served (exec (GoWithHTTPHandler [] Sample.no_content) spaced_path) = [].
Proof.
  assert (H1 : Error (builder spaced_path) = None) by reflexivity.
  split; [exact H1|].
  destruct (dispatch_refused_request_line_panics [] Sample.no_content
              spaced_path
              "invalid NewRequest arguments; malformed HTTP request" H1)
    as (Hres & Hreported & Hserved).
  - vm_compute. reflexivity.
  - split; [eexists; exact Hres|]. split; [exact Hreported | exact Hserved].
Defined.

Lemma dispatch_carries_body_witness :
  Error (builder lower_host) = None
  /\ Body (builder lower_host) = Some ""
  /\ exists req,
       served (exec (GoWithHTTPHandler [("host", "api.test")]
                       Sample.no_content) lower_host) = [] ++ [req]
       /\ req_Body req = ""
       /\ req_ContentLength req = 0.
Proof.
  assert (H1 : Error (builder lower_host) = None) by reflexivity.
  assert (H2 : Body (builder lower_host) = Some "") by reflexivity.
  split; [exact H1|]. split; [exact H2|].
  exact (dispatch_carries_body [("host", "api.test")] Sample.no_content
           lower_host Sample.root_request "" H1 H2 lower_host_returns).
Defined.

Lemma dispatch_binds_context_witness :
  Error (builder lower_host) = None
  /\ exists req,
       served (exec (GoWithHTTPHandler [("host", "api.test")]
                       Sample.no_content) lower_host) = [] ++ [req]
       /\ req_ctx req = context.WithValue 1.
Proof.
  assert (H1 : Error (builder lower_host) = None) by reflexivity.
  split; [exact H1|].
  exact (dispatch_binds_context [("host", "api.test")] Sample.no_content
           lower_host Sample.root_request H1 lower_host_returns).
Defined.

Lemma dispatch_empty_method_is_GET_witness :
  Method (builder lower_host) = ""
  /\ result (GoWithHTTPHandler [("host", "api.test")] Sample.no_content)
       lower_host =
     result (GoWithHTTPHandler [("host", "api.test")] Sample.no_content)
       (with_method "GET" lower_host).
Proof.
  assert (H1 : Method (builder lower_host) = "") by reflexivity.
  split; [exact H1|].
  exact (proj1 (dispatch_empty_method_is_GET [("host", "api.test")]
                  Sample.no_content lower_host H1)).
Defined.

Lemma dispatch_host_needs_exact_key_witness :
  Error (builder lower_host) = None
  /\ entries (builder lower_host) !! "host" = Some "api.test"
  /\ entries (builder lower_host) !! "Host" = None
  /\ exists req,
       served (exec (GoWithHTTPHandler [("host", "api.test")]
                       Sample.no_content) lower_host) = [] ++ [req]
       /\ req_Host req = "example.com".
Proof.
  assert (H1 : Error (builder lower_host) = None) by reflexivity.
  assert (H2 : entries (builder lower_host) !! "Host" = None)
    by (vm_compute; reflexivity).
  split; [exact H1|]. split; [vm_compute; reflexivity|]. split; [exact H2|].
  destruct (dispatch_host_needs_exact_key [("host", "api.test")]
              Sample.no_content lower_host Sample.root_request H1 H2
              lower_host_returns) as (req & Hserved & Hhost & _).
  exists req. split; [exact Hserved | exact Hhost].
Defined.

Lemma two_spellings_returns :
  result (httptest_NewRequest
            (Method (builder (exec (chain two_spellings) Sample.fresh)))
            (Path (builder (exec (chain two_spellings) Sample.fresh)))
            (Body (builder (exec (chain two_spellings) Sample.fresh))))
    (exec (chain two_spellings) Sample.fresh) = Returned Sample.root_request.
Proof. vm_compute. reflexivity. Qed.

Lemma dispatch_header_values_witness :
  Error (builder (exec (chain two_spellings) Sample.fresh)) = None
  /\ range_of (builder (exec (chain two_spellings) Sample.fresh))
       [("accept", "text/plain"); ("Accept", "application/json")]
  /\ exists req,
       served (exec (GoWithHTTPHandler
                       [("accept", "text/plain"); ("Accept", "application/json")]
                       Sample.no_content)
                 (exec (chain two_spellings) Sample.fresh)) = [] ++ [req]
       /\ values "Accept" (req_Header req)
          = [] ++ ["text/plain"; "application/json"].
Proof.
  assert (H1 : Error (builder (exec (chain two_spellings) Sample.fresh))
               = None) by reflexivity.
  assert (H2 : range_of (builder (exec (chain two_spellings) Sample.fresh))
                 [("accept", "text/plain"); ("Accept", "application/json")])
    by (unfold range_of; vm_compute; reflexivity).
  split; [exact H1|]. split; [exact H2|].
  destruct (dispatch_header_values
              [("accept", "text/plain"); ("Accept", "application/json")]
              Sample.no_content (exec (chain two_spellings) Sample.fresh)
              Sample.root_request "Accept" H1 H2 two_spellings_returns)
    as (req & Hserved & Hvalues & _).
  - discriminate.
  - exists req. split; [exact Hserved | exact Hvalues].
Defined.

Lemma accept_twice_returns :
  result (httptest_NewRequest
            (Method (builder (exec (chain accept_twice) Sample.fresh)))
            (Path (builder (exec (chain accept_twice) Sample.fresh)))
            (Body (builder (exec (chain accept_twice) Sample.fresh))))
    (exec (chain accept_twice) Sample.fresh) = Returned Sample.root_request.
Proof. vm_compute. reflexivity. Qed.

Lemma dispatch_header_get_any_spelling_witness :
  Error (builder (exec (chain accept_twice) Sample.fresh)) = None
  /\ range_of (builder (exec (chain accept_twice) Sample.fresh))
       [("X-Id", "7"); ("Accept", "application/json")]
  /\ entries (builder (exec (chain accept_twice) Sample.fresh)) !! "Accept"
     = Some "application/json"
  /\ alone "Accept" (entries (builder (exec (chain accept_twice) Sample.fresh)))
  /\ exists req,
       served (exec (GoWithHTTPHandler
                       [("X-Id", "7"); ("Accept", "application/json")]
                       Sample.no_content)
                 (exec (chain accept_twice) Sample.fresh)) = [] ++ [req]
       /\ Header_Get "aCCEPT" (req_Header req) = "application/json".
Proof.
  assert (H1 : Error (builder (exec (chain accept_twice) Sample.fresh))
               = None) by reflexivity.
  assert (H2 : range_of (builder (exec (chain accept_twice) Sample.fresh))
                 [("X-Id", "7"); ("Accept", "application/json")])
    by (unfold range_of; vm_compute; apply perm_swap).
  assert (H3 : entries (builder (exec (chain accept_twice) Sample.fresh))
                 !! "Accept" = Some "application/json")
    by (vm_compute; reflexivity).
  assert (H4 : alone "Accept"
                 (entries (builder (exec (chain accept_twice) Sample.fresh))))
    by (apply alone_check; vm_compute; reflexivity).
  split; [exact H1|]. split; [exact H2|]. split; [exact H3|].
  split; [exact H4|].
  apply (dispatch_header_get_any_spelling
           [("X-Id", "7"); ("Accept", "application/json")] Sample.no_content
           (exec (chain accept_twice) Sample.fresh) Sample.root_request
           "Accept" "aCCEPT" "application/json" H1 H2 accept_twice_returns
           H3 H4).
  - vm_compute. reflexivity.
  - vm_compute. discriminate.
  - vm_compute. reflexivity.
Defined.

Lemma chain_keeps_unassigned_headers_witness :
  allocated host_configured
  /\ ("Host" ∉ (omap assigned accept_twice).*1)
  /\ entries (builder (exec (chain accept_twice) host_configured)) !! "Host"
     = Some "api.test".
Proof.
  assert (H1 : allocated host_configured) by (eexists; reflexivity).
  assert (H2 : "Host" ∉ (omap assigned accept_twice).*1).
  { simpl. rewrite !elem_of_cons, elem_of_nil.
    intros [H|[H|[H|H]]]; first [discriminate H | exact H]. }
  split; [exact H1|]. split; [exact H2|].
  rewrite (chain_keeps_unassigned_headers accept_twice host_configured
             "Host" H1 H2).
  vm_compute. reflexivity.
Defined.

Lemma no_trailing_check t :
  strings.cut_space (map String.rev strings.space_runes) (String.rev t)
  = None ->
  forall p front, p ∈ strings.space_runes -> t <> front +:+ p.
Proof.
  intros Hcut p front Hp Heq.
  apply (cut_space_None _ _ Hcut (String.rev p) (String.rev front)).
  - apply (list_elem_of_fmap_2 String.rev). exact Hp.
  - rewrite Heq. apply rev_append.
Qed.

Lemma one_space : made_of strings.space_runes " ".
Proof.
  change (made_of strings.space_runes (" " +:+ "")).
  constructor; [|constructor].
  unfold strings.space_runes. simpl. rewrite !elem_of_cons. auto 10.
Qed.

Lemma decode_selects_by_media_type_witness :
  Header_Get "Content-Type" (rec_HeaderMap (Recorder padded)) =
    (" " +:+ "application/json" +:+ " ") +:+ ";charset=utf-8"
  /\ Bytes.mem ";" "application/json" = false
  /\ UnmarshalBodyToObject (json.seeded SampleJson.parse) padded
       SampleJson.only_known =
     match getHandler (json.seeded SampleJson.parse) "application/json" with
     | None =>
         (Some (errorString ("unhandled content: " +:+ "application/json")),
          padded, SampleJson.only_known)
     | Some handler =>
         let '(err, unread, obj') :=
           handler ((" " +:+ "application/json" +:+ " ") +:+ ";charset=utf-8")
             (rec_Body (Recorder padded)) SampleJson.only_known
             (Strict padded) in
         (err,
          mkCompleted
            (mkRecorder (rec_Code (Recorder padded))
               (rec_HeaderMap (Recorder padded)) unread) (Strict padded),
          obj')
     end.
Proof.
  assert (H1 : Header_Get "Content-Type" (rec_HeaderMap (Recorder padded)) =
                 (" " +:+ "application/json" +:+ " ") +:+ ";charset=utf-8")
    by (vm_compute; reflexivity).
  assert (H2 : Bytes.mem ";" "application/json" = false) by reflexivity.
  split; [exact H1|]. split; [exact H2|].
  apply (decode_selects_by_media_type (json.seeded SampleJson.parse) padded
           SampleJson.only_known " " "application/json" " " ";charset=utf-8"
           H1 one_space one_space H2).
  - apply cut_space_None. vm_compute. reflexivity.
  - apply no_trailing_check. vm_compute. reflexivity.
  - right. eexists. reflexivity.
Defined.
